(** * Option flight envelope: envelope geometry, telemetry and path generators

  A shallow embedding of [src/envelope.py], [src/telemetry.py] and
  [src/dynamics.py].

  Number model.  Python floats are read as exact rationals ([Q]): every
  decimal literal of the source denotes its decimal value ([1e-9] is
  [1 # 10^9]), [+ - * /] are exact, and [abs], [max], [round] and the
  comparisons are the exact ones.  Binary64 rounding error, infinities
  and NaN are outside this model.  A division whose divisor is zero
  raises [ZeroDivisionError] in Python; here it returns [None].
  Where overflow and NaN decide a property, [evaluate_state] is modelled
  a second time in binary64 itself (module [Binary64]).

  Randomness.  [random.normalvariate mu sigma] is [mu + g * sigma] for
  the next standard normal deviate [g] of the generator; the generator
  is an explicit state: the sequence of deviates and how many of them
  have been drawn. *)

From Stdlib Require Import QArith Qabs ZArith Lia List Bool String.
Import ListNotations.

Local Open Scope Q_scope.

(** ** Python numerics *)

Module Py.

(** [a < b], [a > b], [a >= b] on floats. *)
Definition ltb (a b : Q) : bool :=
  match a ?= b with Lt => true | _ => false end.
Definition gtb (a b : Q) : bool := ltb b a.
Definition geb (a b : Q) : bool := Qle_bool b a.

(** [a / b]: [ZeroDivisionError] when [b] is zero. *)
Definition div (a b : Q) : option Q :=
  if Qeq_bool b 0 then None else Some (a / b).

(** The builtin [max(a, b)]: the first argument is kept unless the second
    is strictly greater. *)
Definition max (a b : Q) : Q := if gtb b a then b else a.

(** Truth value of a float: zero is false. *)
Definition truthy (a : Q) : bool := negb (Qeq_bool a 0).

(** Truth value of an int: zero is false. *)
Definition truthy_int (n : Z) : bool := negb (n =? 0)%Z.

(** Nearest integer, ties to the even one. *)
Definition round_half_even (q : Q) : Z :=
  let n := Qnum q in
  let d := Zpos (Qden q) in
  let f := (n / d)%Z in
  let r := (n mod d)%Z in
  match (2 * r ?= d)%Z with
  | Lt => f
  | Gt => (f + 1)%Z
  | Eq => if Z.even f then f else (f + 1)%Z
  end.

Definition pow10 (ndigits : nat) : positive :=
  Z.to_pos (10 ^ Z.of_nat ndigits).

(** [round(x, ndigits)] for [ndigits >= 0]: the nearest multiple of
    [10^-ndigits], ties to even. *)
Definition round (x : Q) (ndigits : nat) : Q :=
  round_half_even (x * inject_Z (Zpos (pow10 ndigits))) # pow10 ndigits.

End Py.

Declare Scope py_scope.
Delimit Scope py_scope with py.
Notation "a <? b" := (Py.ltb a b) : py_scope.
Notation "a >? b" := (Py.gtb a b) : py_scope.
Notation "a >=? b" := (Py.geb a b) : py_scope.
Local Open Scope py_scope.

(** Exceptions: [None] is a raised exception. *)
Notation "'try' x <- c1 ; c2" :=
  (match c1 with Some x => c2 | None => None end)
    (at level 61, x name, c1 at next level, right associativity).

(** ** envelope.py *)

Module Envelope.

Record EnvelopeConfig := {
  atr : Q;
  flip : Q;
  put_wall : Q;
  call_wall : Q;
  risk_proxy_base : Q
}.

(** The dataclass default [risk_proxy_base = 1.0]. *)
Definition mkConfig (atr flip put_wall call_wall : Q) : EnvelopeConfig :=
  {| atr := atr; flip := flip; put_wall := put_wall;
     call_wall := call_wall; risk_proxy_base := 1.0 |}.

(** The dict returned by [evaluate_state]. *)
Record State := {
  x : Q;
  y : Q;
  z : Q;
  is_breached : bool;
  is_overspeed : bool;
  is_stall : bool
}.

Inductive Regime := RUPTURE | TAXI | MANEUVER | CRUISE.

Definition regime_name (r : Regime) : string :=
  match r with
  | RUPTURE => "RUPTURE"
  | TAXI => "TAXI"
  | MANEUVER => "MANEUVER"
  | CRUISE => "CRUISE"
  end.

(** The three denominators of [evaluate_state], in the order the source
    evaluates them. *)
Definition airspeed_den (config : EnvelopeConfig) : Q :=
  if atr config >? 0 then atr config else 1e-9.

Definition load_den (hv : Q) : Q :=
  if hv >? 0 then hv else 1e-9.

Definition wall_dists (config : EnvelopeConfig) (spot : Q) : Q * Q :=
  if spot >=? flip config
  then (Qabs (call_wall config - spot), Qabs (call_wall config - flip config))
  else (Qabs (put_wall config - spot), Qabs (put_wall config - flip config)).

Definition proximity_den (max_dist : Q) : Q :=
  if max_dist >? 0 then max_dist else 1e-9.

Definition evaluate_state (config : EnvelopeConfig) (spot iv hv : Q)
  : option State :=
  try airspeed <- Py.div (Qabs (spot - flip config)) (airspeed_den config);
  try load_factor <- Py.div iv (load_den hv);
  let '(wall_dist, max_dist) := wall_dists config spot in
  try wall_proximity <- Py.div wall_dist (proximity_den max_dist);
  Some {| x := airspeed;
          y := load_factor;
          z := wall_proximity;
          is_breached :=
            (spot >? call_wall config) || (spot <? put_wall config);
          is_overspeed := airspeed >? 3.0;
          is_stall := airspeed <? 0.2 |}.

Definition get_regime (x y : Q) : Regime :=
  if (y >? 2.5) || (x >? 4.5) then RUPTURE
  else if x <? 0.3 then TAXI
  else if (y >? 1.5) || (x >? 2.5) then MANEUVER
  else CRUISE.

End Envelope.

(** ** telemetry.py *)

Module Telemetry.

Inductive Flag := BREACH | OVERSPEED | STALL.

Definition flag_name (f : Flag) : string :=
  match f with
  | BREACH => "BREACH"
  | OVERSPEED => "OVERSPEED"
  | STALL => "STALL"
  end.

(** The dict returned by [compute_step]. *)
Record TelemetryRecord := {
  timestamp : Z;
  spot : Q;
  iv : Q;
  hv : Q;
  x : Q;
  y : Q;
  z : Q;
  regime : Envelope.Regime;
  flags : list Flag
}.

(** [if c: flags.append(f)] *)
Definition append_if (c : bool) (f : Flag) (flags : list Flag) : list Flag :=
  if c then flags ++ [f] else flags.

Definition compute_step (envelope : Envelope.EnvelopeConfig)
           (spot iv hv : Q) (timestamp : Z) : option TelemetryRecord :=
  try state <- Envelope.evaluate_state envelope spot iv hv;
  let regime := Envelope.get_regime (Envelope.x state) (Envelope.y state) in
  let flags := [] in
  let flags := append_if (Envelope.is_breached state) BREACH flags in
  let flags := append_if (Envelope.is_overspeed state) OVERSPEED flags in
  let flags := append_if (Envelope.is_stall state) STALL flags in
  Some {| timestamp := timestamp;
          spot := Py.round spot 2;
          iv := Py.round iv 4;
          hv := Py.round hv 4;
          x := Py.round (Envelope.x state) 3;
          y := Py.round (Envelope.y state) 3;
          z := Py.round (Envelope.z state) 3;
          regime := regime;
          flags := flags |}.

End Telemetry.

(** ** dynamics.py *)

Module Dynamics.

(** *** The [random] module's generator *)

Record RandomState := {
  deviates : nat -> Q;   (* the standard normal deviates, in draw order *)
  drawn : nat            (* how many have been consumed *)
}.

(** A computation that draws from the generator. *)
Definition Rand (A : Type) : Type := RandomState -> A * RandomState.

Definition ret {A} (a : A) : Rand A := fun s => (a, s).

Definition bind {A B} (c : Rand A) (k : A -> Rand B) : Rand B :=
  fun s => let '(a, s') := c s in k a s'.

Definition normalvariate (mu sigma : Q) : Rand Q :=
  fun s => (mu + deviates s (drawn s) * sigma,
            {| deviates := deviates s; drawn := S (drawn s) |}).

(** [for i in range(n): s = body(i, s)], counting from [i]. *)
Fixpoint for_from {St} (n : nat) (i : Z) (body : Z -> St -> Rand St) (s : St)
  : Rand St :=
  match n with
  | O => ret s
  | S n' => bind (body i s) (for_from n' (i + 1)%Z body)
  end.

(** [range(n)] is empty for [n <= 0]. *)
Definition for_range {St} (n : Z) (body : Z -> St -> Rand St) (s : St)
  : Rand St :=
  for_from (Z.to_nat n) 0%Z body s.

(** *** PathGenerator *)

Record PathGenerator := {
  start_spot : Q;
  atr : Q;
  steps : Z
}.

(** The loop state of every generator: the running value and the path
    built so far. *)
Definition Loop : Type := Q * list Q.

Definition mean_revert_pin_body (self : PathGenerator)
           (target intensity noise : Q) (_ : Z) (st : Loop) : Rand Loop :=
  let '(spot, path) := st in
  let drift := (target - spot) * intensity in
  bind (normalvariate 0 (atr self * noise)) (fun g =>
  let spot := spot + (drift + g) in
  ret (spot, path ++ [spot])).

Definition mean_revert_pin (self : PathGenerator)
           (target intensity noise : Q) : Rand (list Q) :=
  let path := [start_spot self] in
  let spot := start_spot self in
  bind (for_range (steps self - 1)
                  (mean_revert_pin_body self target intensity noise)
                  (spot, path)) (fun st =>
  ret (snd st)).

Definition breakout_body (self : PathGenerator)
           (direction speed noise : Q) (_ : Z) (st : Loop) : Rand Loop :=
  let '(spot, path) := st in
  bind (normalvariate 0 (atr self * noise)) (fun g =>
  let spot := spot + (direction * atr self * speed + g) in
  ret (spot, path ++ [spot])).

Definition breakout (self : PathGenerator)
           (direction speed noise : Q) : Rand (list Q) :=
  let path := [start_spot self] in
  let spot := start_spot self in
  bind (for_range (steps self - 1)
                  (breakout_body self direction speed noise)
                  (spot, path)) (fun st =>
  ret (snd st)).

Definition false_breakout_towards (self : PathGenerator) (target_wall : Q)
           (_ : Z) (st : Loop) : Rand Loop :=
  let '(spot, path) := st in
  let drift := (target_wall - spot) * 0.1 in
  bind (normalvariate 0 (atr self * 0.1)) (fun g =>
  let spot := spot + (drift + g) in
  ret (spot, path ++ [spot])).

Definition false_breakout_back (self : PathGenerator) (recovery : Q)
           (_ : Z) (st : Loop) : Rand Loop :=
  let '(spot, path) := st in
  let drift := (start_spot self - spot) * recovery in
  bind (normalvariate 0 (atr self * 0.2)) (fun g =>
  let spot := spot + (drift + g) in
  ret (spot, path ++ [spot])).

Definition false_breakout (self : PathGenerator)
           (target_wall breach_depth recovery : Q) : Rand (list Q) :=
  let path := [] in
  let spot := start_spot self in
  let half := (steps self / 2)%Z in
  bind (for_range half (false_breakout_towards self target_wall)
                  (spot, path)) (fun st =>
  let overshoot_target :=
    target_wall + (target_wall - start_spot self) * breach_depth in
  bind (for_range (steps self - half) (false_breakout_back self recovery)
                  st) (fun st =>
  ret (snd st))).

(** [target_iv or start_iv] *)
Definition or_default (target_iv : option Q) (start_iv : Q) : Q :=
  match target_iv with
  | Some t => if Py.truthy t then t else start_iv
  | None => start_iv
  end.

(** [shock_at and i == shock_at] *)
Definition shock_now (shock_at : option Z) (i : Z) : bool :=
  match shock_at with
  | Some s => Py.truthy_int s && (i =? s)%Z
  | None => false
  end.

Definition generate_vol_path_body (start_iv target : Q)
           (shock_at : option Z) (i : Z) (st : Loop) : Rand Loop :=
  let '(iv, path) := st in
  let iv := if shock_now shock_at i then iv * 1.5 else iv in
  let drift := (target - iv) * 0.05 in
  bind (normalvariate 0 (start_iv * 0.05)) (fun g =>
  let iv := iv + (drift + g) in
  ret (iv, path ++ [Py.max 0.01 iv])).

Definition generate_vol_path (self : PathGenerator) (start_iv : Q)
           (target_iv : option Q) (shock_at : option Z) : Rand (list Q) :=
  let path := [start_iv] in
  let iv := start_iv in
  let target := or_default target_iv start_iv in
  bind (for_range (steps self - 1)
                  (generate_vol_path_body start_iv target shock_at)
                  (iv, path)) (fun st =>
  ret (snd st)).

End Dynamics.

(** ** The spec's formulas, for comparison with the code *)

Module Spec.

(** ε of the spec. *)
Definition eps : Q := 1e-9.

(** The mathematical maximum. *)
Definition max (a b : Q) : Q := if Qle_bool a b then b else a.

(** [x = |spot − pivot| / max(volatility_unit, ε)] *)
Definition x (config : Envelope.EnvelopeConfig) (spot : Q) : Q :=
  Qabs (spot - Envelope.flip config) / max (Envelope.atr config) eps.

(** [y = implied_vol / max(historical_vol, ε)] *)
Definition y (iv hv : Q) : Q := iv / max hv eps.

(** The MANEUVER clause of the cascade, read on its own. *)
Definition maneuver_predicate (x y : Q) : Prop := 1.5 < y \/ 2.5 < x.

(** [r] is [x] rounded to [ndigits] decimal places: a multiple of
    [10^-ndigits] that no other multiple is closer to [x] than. *)
Definition rounded_to (ndigits : nat) (x r : Q) : Prop :=
  (exists m : Z, r == m # Py.pow10 ndigits) /\
  (forall m' : Z, Qabs (r - x) <= Qabs ((m' # Py.pow10 ndigits) - x)).

End Spec.

(** The configuration of the spec's concrete scenarios. *)
Definition scenario_config : Envelope.EnvelopeConfig :=
  Envelope.mkConfig 2.8 692.5 680.0 700.0.

(** ** The generators' recurrences, unrolled

    Every loop of [dynamics.py] draws one deviate per iteration, advances
    the running value and appends a function of it to the path. *)

Section Recurrence.

Variable sigma : Q.
Variable next : Z -> Q -> Q -> Q.
Variable out : Q -> Q.

(** The common shape of the loop bodies. *)
Definition step_body (i : Z) (st : Dynamics.Loop)
  : Dynamics.Rand Dynamics.Loop :=
  let '(v, path) := st in
  Dynamics.bind (Dynamics.normalvariate 0 sigma) (fun g =>
  let v := next i v g in
  Dynamics.ret (v, path ++ [out v])).

(** [n] iterations from index [i], deviate [k] and value [v]: the final
    running value and the elements appended. *)
Fixpoint unroll (dev : nat -> Q) (n : nat) (i : Z) (k : nat) (v : Q)
  : Q * list Q :=
  match n with
  | O => (v, [])
  | S n' =>
      let v' := next i v (0 + dev k * sigma) in
      let '(vf, l) := unroll dev n' (i + 1)%Z (S k) v' in
      (vf, out v' :: l)
  end.

End Recurrence.

Module Recurrence.

(** [v ← v + (target − v)·intensity + Gaussian(0, sigma)], [n] times from
    [v], the [k]-th deviate first: the values produced, in order. *)
Fixpoint mean_reversion (target intensity sigma : Q) (dev : nat -> Q)
         (n k : nat) (v : Q) : list Q :=
  match n with
  | O => []
  | S n' =>
      let v' := v + ((target - v) * intensity + (0 + dev k * sigma)) in
      v' :: mean_reversion target intensity sigma dev n' (S k) v'
  end.

End Recurrence.

(** ** scenario_runner.py

    [run_scenario] and [run_monte_carlo] as far as their return value and
    their exceptions go: the [print] calls and the writing of the log file
    ([os.makedirs], [TelemetryLogger.save_log]) are left out; the expressions
    a [print] formats are still evaluated, since they can raise. *)

From Stdlib Require Import DecimalString.

Module Scenario.

Inductive Exn := ZeroDivisionError | IndexError | ValueError.

(** A computation that draws from the generator and may raise. *)
Definition M (A : Type) : Type :=
  Dynamics.RandomState -> (Exn + A) * Dynamics.RandomState.

Definition ret {A} (a : A) : M A := fun s => (inr a, s).

Definition raise {A} (e : Exn) : M A := fun s => (inl e, s).

Definition bind {A B} (c : M A) (k : A -> M B) : M B :=
  fun s =>
    match c s with
    | (inr a, s') => k a s'
    | (inl e, s') => (inl e, s')
    end.

Definition draw {A} (c : Dynamics.Rand A) : M A :=
  fun s => let '(a, s') := c s in (inr a, s').

Definition or_raise {A} (e : Exn) (o : option A) : M A :=
  match o with
  | Some a => ret a
  | None => raise e
  end.

(** [for i in range(n): s = body(i, s)], counting from [i]. *)
Fixpoint for_from {St} (n : nat) (i : Z) (body : Z -> St -> M St) (s : St)
  : M St :=
  match n with
  | O => ret s
  | S n' => bind (body i s) (for_from n' (i + 1)%Z body)
  end.

Definition for_range {St} (n : Z) (body : Z -> St -> M St) (s : St) : M St :=
  for_from (Z.to_nat n) 0%Z body s.

(** [l[i]]: a negative index counts from the end; [None] is [IndexError]. *)
Definition index {A} (l : list A) (i : Z) : option A :=
  let j := if (i <? 0)%Z then (i + Z.of_nat (List.length l))%Z else i in
  if (j <? 0)%Z then None else nth_error l (Z.to_nat j).

(** [[v] * n] *)
Definition times (v : Q) (n : Z) : list Q := repeat v (Z.to_nat n).

(** [max(iterable)]: [None] is [ValueError] on an empty iterable. *)
Definition max_of (l : list Q) : option Q :=
  match l with
  | [] => None
  | v :: rest => Some (fold_left Py.max rest v)
  end.

(** [sum(iterable)] *)
Definition sum_of (l : list Q) : Q := fold_left Qplus l 0.

(** The runner holds the configuration; its envelope and telemetry engine
    are built from it. *)
Definition ScenarioRunner : Type := Envelope.EnvelopeConfig.

Definition generate_spots (self : ScenarioRunner) (gen : Dynamics.PathGenerator)
           (path_type : string) : Dynamics.Rand (list Q) :=
  if (path_type =? "mean_revert")%string then
    Dynamics.mean_revert_pin gen (Envelope.flip self) 0.1 0.2
  else if (path_type =? "breakout")%string then
    Dynamics.breakout gen 1 0.5 0.1
  else if (path_type =? "false_breakout")%string then
    Dynamics.false_breakout gen (Envelope.call_wall self) 1.5 0.8
  else
    Dynamics.mean_revert_pin gen (Envelope.flip self) 0.1 0.2.

Definition run_scenario_body (self : ScenarioRunner) (spots ivs hvs : list Q)
           (i : Z) (log_data : list Telemetry.TelemetryRecord)
  : M (list Telemetry.TelemetryRecord) :=
  bind (or_raise IndexError (index spots i)) (fun spot =>
  bind (or_raise IndexError (index ivs i)) (fun iv =>
  bind (or_raise IndexError (index hvs i)) (fun hv =>
  bind (or_raise ZeroDivisionError
                 (Telemetry.compute_step self spot iv hv i)) (fun step_data =>
  ret (log_data ++ [step_data]))))).

Definition run_scenario (self : ScenarioRunner) (name path_type : string)
           (steps : Z) : M (list Telemetry.TelemetryRecord) :=
  let gen := {| Dynamics.start_spot := 694.0;
                Dynamics.atr := Envelope.atr self;
                Dynamics.steps := steps |} in
  bind (draw (generate_spots self gen path_type)) (fun spots =>
  bind (draw (Dynamics.generate_vol_path gen 0.15 None None)) (fun ivs =>
  let hvs := times 0.12 steps in
  let log_data := [] in
  bind (for_range steps (run_scenario_body self spots ivs hvs) log_data)
       (fun log_data =>
  ret log_data))).

(** One entry of [run_monte_carlo]'s result. *)
Record Outcome := {
  run : Z;
  max_load : Q;
  breached : bool
}.

Definition run_monte_carlo_body (self : ScenarioRunner)
           (name path_type : string) (steps : Z)
           (i : Z) (results : list Outcome) : M (list Outcome) :=
  bind (run_scenario self
                     (name ++ "_" ++ NilZero.string_of_int (Z.to_int i))
                     path_type steps) (fun log_data =>
  bind (or_raise ValueError (max_of (map Telemetry.y log_data)))
       (fun max_load =>
  let breached :=
    existsb (fun step => (0 <? List.length (Telemetry.flags step))%nat)
            log_data in
  ret (results ++ [{| run := i; max_load := max_load;
                      breached := breached |}]))).

Definition run_monte_carlo (self : ScenarioRunner) (name path_type : string)
           (n_runs steps : Z) : M (list Outcome) :=
  let results := [] in
  bind (for_range n_runs (run_monte_carlo_body self name path_type steps)
                  results) (fun results =>
  let breach_count := List.length (filter breached results) in
  bind (or_raise ZeroDivisionError
                 (Py.div (inject_Z (Z.of_nat breach_count))
                         (inject_Z n_runs))) (fun _ =>
  bind (or_raise ZeroDivisionError
                 (Py.div (sum_of (map max_load results))
                         (inject_Z n_runs))) (fun _ =>
  ret results))).

End Scenario.

(** ** envelope.py in binary64

    [evaluate_state] once more, this time in IEEE 754 binary64 arithmetic,
    the arithmetic of Python's [float]: every literal is the nearest double,
    [- / abs] round to nearest (ties to even) and can overflow to an
    infinity or produce NaN, and a comparison with NaN is false.  Python
    raises [ZeroDivisionError] when the divisor of [/] is a zero of either
    sign, and for no other operand. *)

From Stdlib Require Import Floats.

Module Binary64.

#[local] Set Warnings "-inexact-float".
Local Open Scope float_scope.

Record EnvelopeConfig := {
  atr : float;
  flip : float;
  put_wall : float;
  call_wall : float;
  risk_proxy_base : float
}.

(** The dataclass default [risk_proxy_base = 1.0]. *)
Definition mkConfig (atr flip put_wall call_wall : float) : EnvelopeConfig :=
  {| atr := atr; flip := flip; put_wall := put_wall;
     call_wall := call_wall; risk_proxy_base := 1.0 |}.

(** The dict returned by [evaluate_state]. *)
Record State := {
  x : float;
  y : float;
  z : float;
  is_breached : bool;
  is_overspeed : bool;
  is_stall : bool
}.

(** [a / b]: [ZeroDivisionError] when [b] is [0.0] or [-0.0]. *)
Definition div (a b : float) : option float :=
  if b =? 0 then None else Some (a / b).

(** The three denominators of [evaluate_state]; [d > 0] is [0 < d]. *)
Definition airspeed_den (config : EnvelopeConfig) : float :=
  if 0 <? atr config then atr config else 1e-9.

Definition load_den (hv : float) : float :=
  if 0 <? hv then hv else 1e-9.

Definition wall_dists (config : EnvelopeConfig) (spot : float)
  : float * float :=
  if flip config <=? spot
  then (abs (call_wall config - spot), abs (call_wall config - flip config))
  else (abs (put_wall config - spot), abs (put_wall config - flip config)).

Definition proximity_den (max_dist : float) : float :=
  if 0 <? max_dist then max_dist else 1e-9.

Definition evaluate_state (config : EnvelopeConfig) (spot iv hv : float)
  : option State :=
  try airspeed <- div (abs (spot - flip config)) (airspeed_den config);
  try load_factor <- div iv (load_den hv);
  let '(wall_dist, max_dist) := wall_dists config spot in
  try wall_proximity <- div wall_dist (proximity_den max_dist);
  Some {| x := airspeed;
          y := load_factor;
          z := wall_proximity;
          is_breached :=
            (call_wall config <? spot) || (spot <? put_wall config);
          is_overspeed := 3.0 <? airspeed;
          is_stall := airspeed <? 0.2 |}.

End Binary64.

(** Classes of binary64 values, read on their [spec_float]. *)
Module SF.

Definition not_nan (f : spec_float) : bool :=
  match f with
  | S754_nan => false
  | _ => true
  end.

(** A zero or a finite nonzero value. *)
Definition finite (f : spec_float) : bool :=
  match f with
  | S754_zero _ | S754_finite _ _ _ => true
  | _ => false
  end.

(** Not NaN, with the given sign bit. *)
Definition signed (s : bool) (f : spec_float) : bool :=
  match f with
  | S754_zero s' | S754_infinity s' | S754_finite s' _ _ => Bool.eqb s s'
  | S754_nan => false
  end.

(** [+0], a positive finite value or [+inf]. *)
Definition nonneg (f : spec_float) : bool := signed false f.

(** A positive finite value or [+inf]. *)
Definition positive (f : spec_float) : bool :=
  match f with
  | S754_infinity false | S754_finite false _ _ => true
  | _ => false
  end.

End SF.


(** * Properties *)

(** ** Comparisons and guarded division *)

Lemma ltb_lt (a b : Q) : (a <? b) = true <-> a < b.
Proof.
  unfold Py.ltb. rewrite Qlt_alt.
  destruct (a ?= b); split; congruence.
Qed.

Lemma ltb_nlt (a b : Q) : (a <? b) = false <-> b <= a.
Proof.
  rewrite <- not_true_iff_false, ltb_lt. split.
  - apply Qnot_lt_le.
  - apply Qle_not_lt.
Qed.

Lemma gtb_gt (a b : Q) : (a >? b) = true <-> b < a.
Proof. apply ltb_lt. Qed.

Lemma gtb_ngt (a b : Q) : (a >? b) = false <-> a <= b.
Proof. apply ltb_nlt. Qed.

Lemma div_defined (a b : Q) : ~ b == 0 -> Py.div a b = Some (a / b).
Proof.
  intros Hb. unfold Py.div.
  destruct (Qeq_bool b 0) eqn:E; [|reflexivity].
  apply Qeq_bool_iff in E. contradiction.
Qed.

Lemma div_positive_den (a b : Q) : 0 < b -> Py.div a b = Some (a / b).
Proof.
  intros Hb. apply div_defined. intros E. rewrite E in Hb.
  exact (Qlt_irrefl 0 Hb).
Qed.

Lemma guard_positive (d : Q) : 0 < (if d >? 0 then d else 1e-9).
Proof.
  destruct (d >? 0) eqn:E.
  - now apply gtb_gt.
  - reflexivity.
Qed.

Lemma airspeed_den_positive config : 0 < Envelope.airspeed_den config.
Proof. apply guard_positive. Qed.

Lemma load_den_positive hv : 0 < Envelope.load_den hv.
Proof. apply guard_positive. Qed.

Lemma proximity_den_positive d : 0 < Envelope.proximity_den d.
Proof. apply guard_positive. Qed.

(** [evaluate_state] unfolded: it returns, and what it returns. *)
Lemma evaluate_state_eq config spot iv hv :
  Envelope.evaluate_state config spot iv hv =
  let airspeed :=
    Qabs (spot - Envelope.flip config) / Envelope.airspeed_den config in
  let dists := Envelope.wall_dists config spot in
  Some {| Envelope.x := airspeed;
          Envelope.y := iv / Envelope.load_den hv;
          Envelope.z := fst dists / Envelope.proximity_den (snd dists);
          Envelope.is_breached :=
            (spot >? Envelope.call_wall config)
            || (spot <? Envelope.put_wall config);
          Envelope.is_overspeed := airspeed >? 3.0;
          Envelope.is_stall := airspeed <? 0.2 |}.
Proof.
  unfold Envelope.evaluate_state.
  rewrite (div_positive_den _ _ (airspeed_den_positive config)).
  rewrite (div_positive_den _ _ (load_den_positive hv)).
  destruct (Envelope.wall_dists config spot) as [wall_dist max_dist].
  rewrite (div_positive_den _ _ (proximity_den_positive max_dist)).
  reflexivity.
Qed.

(** ** envelope.py: [evaluate_state] and [get_regime] *)

Lemma spec_max_left (a b : Q) : b <= a -> Spec.max a b == a.
Proof.
  intros H. unfold Spec.max.
  destruct (Qle_bool a b) eqn:E; [|reflexivity].
  apply Qle_bool_iff in E. now apply Qle_antisym.
Qed.

Lemma spec_max_right (a b : Q) : a <= b -> Spec.max a b = b.
Proof.
  intros H. unfold Spec.max.
  apply Qle_bool_iff in H. now rewrite H.
Qed.

(** The code's guard [d if d > 0 else ε] against the spec's [max(d, ε)]:
    they agree unless [0 < d < ε]. *)
Lemma guard_is_max (d : Q) :
  d <= 0 \/ Spec.eps <= d ->
  (if d >? 0 then d else 1e-9) == Spec.max d Spec.eps.
Proof.
  intros [H | H].
  - apply gtb_ngt in H as E. rewrite E.
    rewrite spec_max_right; [reflexivity|].
    apply Qle_trans with 0; [assumption | discriminate].
  - assert (E : (d >? 0) = true).
    { apply gtb_gt. apply Qlt_le_trans with Spec.eps; [reflexivity | assumption]. }
    rewrite E. symmetry. now apply spec_max_left.
Qed.

Lemma guard_below_eps (d : Q) :
  0 < d -> (if d >? 0 then d else 1e-9) = d.
Proof. intros H. apply gtb_gt in H. now rewrite H. Qed.

(** C3, as stated, fails: with [volatility_unit = 1e-10] the code divides
    by [1e-10], not by [max(1e-10, 1e-9) = 1e-9]. *)
Lemma evaluate_state_not_max_guard :
  ~ (exists st,
        Envelope.evaluate_state
          (Envelope.mkConfig 1e-10 692.5 680.0 700.0) 693.5 0.15 0.12
        = Some st /\
        Envelope.x st
        == Spec.x (Envelope.mkConfig 1e-10 692.5 680.0 700.0) 693.5 /\
        Envelope.y st == Spec.y 0.15 0.12).
Proof.
  intros (st & Hst & Hx & _).
  vm_compute in Hst. injection Hst as <-.
  vm_compute in Hx. discriminate.
Qed.

(** C3 (amended): [evaluate_state] returns [x = |spot − pivot| / d] with
    [d = volatility_unit] when [volatility_unit > 0] and [ε = 1e-9]
    otherwise, and [y = implied_vol / e] with [e = historical_vol] when
    [historical_vol > 0] and [ε] otherwise.  These are the spec's
    [max(·, ε)] formulas whenever the guarded quantity is [<= 0] or
    [>= ε]; for [0 < volatility_unit < ε] the denominator is
    [volatility_unit] itself (and likewise for [historical_vol]). *)
Theorem evaluate_state_coordinates
        (config : Envelope.EnvelopeConfig) (spot iv hv : Q) :
  exists st,
    Envelope.evaluate_state config spot iv hv = Some st /\
    Envelope.x st
    = Qabs (spot - Envelope.flip config)
      / (if Envelope.atr config >? 0 then Envelope.atr config else 1e-9) /\
    Envelope.y st = iv / (if hv >? 0 then hv else 1e-9) /\
    (Envelope.atr config <= 0 \/ Spec.eps <= Envelope.atr config ->
     Envelope.x st == Spec.x config spot) /\
    (hv <= 0 \/ Spec.eps <= hv -> Envelope.y st == Spec.y iv hv) /\
    (0 < Envelope.atr config ->
     Envelope.x st = Qabs (spot - Envelope.flip config) / Envelope.atr config) /\
    (0 < hv -> Envelope.y st = iv / hv).
Proof.
  rewrite evaluate_state_eq. cbv zeta.
  eexists. split; [reflexivity|]. cbn [Envelope.x Envelope.y].
  unfold Envelope.airspeed_den, Envelope.load_den, Spec.x, Spec.y.
  repeat split.
  - intros H. now rewrite (guard_is_max _ H).
  - intros H. now rewrite (guard_is_max _ H).
  - intros H. now rewrite (guard_below_eps _ H).
  - intros H. now rewrite (guard_below_eps _ H).
Qed.

(** At the scenario configuration the guards are inactive and the code
    computes the spec's formulas. *)
Lemma evaluate_state_coordinates_scenario :
  exists st,
    Envelope.evaluate_state scenario_config 693.5 0.15 0.12 = Some st /\
    Envelope.x st == Spec.x scenario_config 693.5 /\
    Envelope.y st == Spec.y 0.15 0.12.
Proof.
  destruct (evaluate_state_coordinates scenario_config 693.5 0.15 0.12)
    as (st & Hst & _ & _ & Hx & Hy & _).
  exists st. split; [exact Hst|]. split.
  - apply Hx. right. discriminate.
  - apply Hy. right. discriminate.
Defined.

(** C4: the cascade is first-true-wins.  Every point with [y > 2.5] or
    [x > 4.5] is classified RUPTURE, although every such point satisfies
    the MANEUVER clause as well. *)
Theorem get_regime_rupture_first (x y : Q) :
  2.5 < y \/ 4.5 < x ->
  Envelope.get_regime x y = Envelope.RUPTURE /\ Spec.maneuver_predicate x y.
Proof.
  intros H. split.
  - unfold Envelope.get_regime.
    destruct H as [H | H]; apply gtb_gt in H; rewrite H;
      [reflexivity | now rewrite orb_true_r].
  - destruct H as [H | H]; [left | right];
      (eapply Qlt_trans; [|exact H]); reflexivity.
Qed.

(** C4 at the spec's point: [get_regime(x=5.0, y=5.0) = RUPTURE]. *)
Lemma get_regime_5_5 :
  Envelope.get_regime 5.0 5.0 = Envelope.RUPTURE /\
  Spec.maneuver_predicate 5.0 5.0.
Proof.
  apply (get_regime_rupture_first 5.0 5.0). left. reflexivity.
Defined.

(** A degenerate configuration (zero volatility unit, walls collapsed onto
    the pivot) still evaluates. *)
Example evaluate_state_degenerate :
  exists st,
    Envelope.evaluate_state (Envelope.mkConfig 0 100 100 100) 100 0 0
    = Some st /\
    Envelope.x st == 0 /\ Envelope.y st == 0 /\ Envelope.z st == 0.
Proof. eexists. split; [vm_compute; reflexivity|]. repeat split. Qed.

(** ** Rounding *)

(** The integer chosen by [round_half_even] is within half a unit of the
    fraction [n / d]. *)
Lemma round_half_even_close (n : Z) (d : positive) :
  (2 * Z.abs (Py.round_half_even (n # d) * Zpos d - n) <= Zpos d)%Z.
Proof.
  unfold Py.round_half_even. cbn [Qnum Qden].
  pose proof (Z.div_mod n (Zpos d) ltac:(lia)) as Hdm.
  pose proof (Z.mod_pos_bound n (Zpos d) ltac:(lia)) as Hr.
  set (f := (n / Zpos d)%Z) in *. set (r := (n mod Zpos d)%Z) in *.
  destruct (Z.compare_spec (2 * r) (Zpos d)) as [E | E | E];
    [destruct (Z.even f)| |]; lia.
Qed.

(** An integer within half a unit of [n / d] is a nearest integer. *)
Lemma half_unit_is_nearest (n d m m' : Z) :
  (0 < d)%Z -> (2 * Z.abs (m * d - n) <= d)%Z ->
  (Z.abs (m * d - n) <= Z.abs (m' * d - n))%Z.
Proof.
  intros Hd Hm.
  destruct (Z.eq_dec m' m) as [-> | Hne]; [lia|].
  assert (Hk : (m' * d - n = (m * d - n) + (m' - m) * d)%Z) by lia.
  destruct (Z_lt_le_dec m' m) as [Hlt | Hge].
  - assert ((m' - m) * d <= - d)%Z by nia. lia.
  - assert (d <= (m' - m) * d)%Z by nia. lia.
Qed.

Lemma Qabs_diff_fractions (m a : Z) (p b : positive) :
  Qabs ((m # p) - (a # b))
  = (Z.abs (m * Zpos b + - a * Zpos p) # (p * b)).
Proof. reflexivity. Qed.

Lemma round_rounded_to (ndigits : nat) (x : Q) :
  Spec.rounded_to ndigits x (Py.round x ndigits).
Proof.
  split.
  - eexists. unfold Py.round. reflexivity.
  - intros m'. unfold Py.round.
    destruct x as [a b]. set (p := Py.pow10 ndigits).
    replace ((a # b) * inject_Z (Zpos p)) with ((a * Zpos p) # (b * 1))
      by reflexivity.
    rewrite Pos.mul_1_r.
    rewrite !Qabs_diff_fractions. unfold Qle. cbn [Qnum Qden].
    apply Z.mul_le_mono_nonneg_r; [lia|].
    pose proof (round_half_even_close (a * Zpos p) b) as Hc.
    pose proof (half_unit_is_nearest (a * Zpos p) (Zpos b)
                  (Py.round_half_even (a * Zpos p # b)) m' ltac:(lia) Hc).
    lia.
Qed.

(** The rounded value is within half a unit in the last place. *)
Lemma round_half_unit (ndigits : nat) (x : Q) :
  Qabs (Py.round x ndigits - x) <= 1 # (2 * Py.pow10 ndigits).
Proof.
  unfold Py.round. destruct x as [a b]. set (p := Py.pow10 ndigits).
  replace ((a # b) * inject_Z (Zpos p)) with ((a * Zpos p) # (b * 1))
    by reflexivity.
  rewrite Pos.mul_1_r, Qabs_diff_fractions. unfold Qle. cbn [Qnum Qden].
  pose proof (round_half_even_close (a * Zpos p) b) as Hc.
  rewrite !Pos2Z.inj_mul. nia.
Qed.

(** ** telemetry.py: [compute_step] *)

(** The flags list, by cases on the three booleans. *)
Lemma flags_order (b o s : bool) :
  Telemetry.append_if s Telemetry.STALL
    (Telemetry.append_if o Telemetry.OVERSPEED
       (Telemetry.append_if b Telemetry.BREACH []))
  = (if b then [Telemetry.BREACH] else [])
      ++ (if o then [Telemetry.OVERSPEED] else [])
      ++ (if s then [Telemetry.STALL] else []).
Proof. destruct b, o, s; reflexivity. Qed.

(** C8: [compute_step] returns a record whose flags are BREACH, OVERSPEED,
    STALL in that order, each present exactly when the state's boolean is
    set, and whose numeric fields are the inputs and coordinates rounded
    (half to even): spot to 2 decimal places, iv and hv to 4, and x, y, z
    to 3. *)
Theorem compute_step_flags_and_rounding
        (config : Envelope.EnvelopeConfig) (spot iv hv : Q) (timestamp : Z) :
  exists st r,
    Envelope.evaluate_state config spot iv hv = Some st /\
    Telemetry.compute_step config spot iv hv timestamp = Some r /\
    Telemetry.flags r
    = (if Envelope.is_breached st then [Telemetry.BREACH] else [])
        ++ (if Envelope.is_overspeed st then [Telemetry.OVERSPEED] else [])
        ++ (if Envelope.is_stall st then [Telemetry.STALL] else []) /\
    (Telemetry.spot r = Py.round spot 2 /\
     Spec.rounded_to 2 spot (Telemetry.spot r)) /\
    (Telemetry.iv r = Py.round iv 4 /\
     Spec.rounded_to 4 iv (Telemetry.iv r)) /\
    (Telemetry.hv r = Py.round hv 4 /\
     Spec.rounded_to 4 hv (Telemetry.hv r)) /\
    (Telemetry.x r = Py.round (Envelope.x st) 3 /\
     Spec.rounded_to 3 (Envelope.x st) (Telemetry.x r)) /\
    (Telemetry.y r = Py.round (Envelope.y st) 3 /\
     Spec.rounded_to 3 (Envelope.y st) (Telemetry.y r)) /\
    (Telemetry.z r = Py.round (Envelope.z st) 3 /\
     Spec.rounded_to 3 (Envelope.z st) (Telemetry.z r)).
Proof.
  pose proof (evaluate_state_eq config spot iv hv) as Hst. cbv zeta in Hst.
  eexists. unfold Telemetry.compute_step. rewrite Hst.
  eexists. split; [reflexivity|]. split; [reflexivity|].
  cbn [Telemetry.flags Telemetry.spot Telemetry.iv Telemetry.hv
       Telemetry.x Telemetry.y Telemetry.z].
  split; [apply flags_order|].
  repeat split; apply round_rounded_to.
Qed.

(** C1, as stated, fails: at the pivot [x = 0 < 0.2], so the record carries
    the STALL flag and its flags list is not empty. *)
Lemma scenario_at_pivot_flags_not_empty :
  ~ (exists r,
        Telemetry.compute_step scenario_config 692.5 0.15 0.12 0 = Some r /\
        Telemetry.x r == 0.0 /\
        Telemetry.y r == 1.25 /\
        Telemetry.regime r = Envelope.TAXI /\
        Telemetry.flags r = []).
Proof.
  intros (r & Hr & _ & _ & _ & Hflags).
  vm_compute in Hr. injection Hr as <-.
  discriminate Hflags.
Qed.

(** C1 (amended): with the scenario configuration, [compute_step] on
    [spot=692.5, iv=0.15, hv=0.12] yields a record with [x = 0.0],
    [y = 1.25], regime TAXI and flags [[STALL]]. *)
Theorem scenario_at_pivot (timestamp : Z) :
  exists r,
    Telemetry.compute_step scenario_config 692.5 0.15 0.12 timestamp
    = Some r /\
    Telemetry.x r == 0.0 /\
    Telemetry.y r == 1.25 /\
    Telemetry.regime r = Envelope.TAXI /\
    Telemetry.flags r = [Telemetry.STALL].
Proof.
  eexists. split; [vm_compute; reflexivity|].
  repeat split.
Qed.

(** The spec's second scenario: [spot = 750.0] is breached and overspeed,
    regime RUPTURE. *)
Example scenario_breached (timestamp : Z) :
  exists r,
    Telemetry.compute_step scenario_config 750.0 0.15 0.12 timestamp
    = Some r /\
    Telemetry.x r == 20.536 /\
    Telemetry.regime r = Envelope.RUPTURE /\
    Telemetry.flags r = [Telemetry.BREACH; Telemetry.OVERSPEED].
Proof.
  eexists. split; [vm_compute; reflexivity|].
  repeat split.
Qed.

(** ** dynamics.py: loops and recurrences *)

(** Bodies that agree on the indices a loop visits give the same loop. *)
Lemma for_from_ext {St} (n : nat) :
  forall (i : Z) (body1 body2 : Z -> St -> Dynamics.Rand St) s rs,
    (forall j st rs', (i <= j < i + Z.of_nat n)%Z ->
                      body1 j st rs' = body2 j st rs') ->
    Dynamics.for_from n i body1 s rs = Dynamics.for_from n i body2 s rs.
Proof.
  induction n as [|n IH]; intros i body1 body2 s rs H.
  - reflexivity.
  - cbn [Dynamics.for_from]. unfold Dynamics.bind.
    rewrite (H i s rs) by lia.
    destruct (body2 i s rs) as [s' rs'].
    apply IH. intros j st rs'' Hj. apply H. lia.
Qed.

Lemma for_range_ext {St} (n : Z) (body1 body2 : Z -> St -> Dynamics.Rand St)
      s rs :
  (forall j st rs', (0 <= j < n)%Z -> body1 j st rs' = body2 j st rs') ->
  Dynamics.for_range n body1 s rs = Dynamics.for_range n body2 s rs.
Proof.
  intros H. unfold Dynamics.for_range. apply for_from_ext.
  intros j st rs' Hj. apply H. lia.
Qed.

Section RecurrenceFacts.

Variable sigma : Q.
Variable next : Z -> Q -> Q -> Q.
Variable out : Q -> Q.

(** A loop over [step_body] computes [unroll] and consumes one deviate per
    iteration. *)
Lemma for_from_unroll (n : nat) :
  forall (i : Z) (v : Q) (path : list Q) (rs : Dynamics.RandomState),
    Dynamics.for_from n i (step_body sigma next out) (v, path) rs
    = let u := unroll sigma next out (Dynamics.deviates rs) n i
                      (Dynamics.drawn rs) v in
      ((fst u, path ++ snd u),
       {| Dynamics.deviates := Dynamics.deviates rs;
          Dynamics.drawn := Dynamics.drawn rs + n |}).
Proof.
  induction n as [|n IH]; intros i v path rs; cbv zeta.
  - cbn. unfold Dynamics.ret. rewrite app_nil_r, Nat.add_0_r.
    now destruct rs.
  - cbn [Dynamics.for_from unroll].
    unfold Dynamics.bind at 1. cbn -[Dynamics.for_from unroll Qplus Qmult].
    unfold Dynamics.ret. rewrite IH. cbv zeta. cbn [Dynamics.deviates Dynamics.drawn].
    destruct (unroll sigma next out (Dynamics.deviates rs) n (i + 1)
                     (S (Dynamics.drawn rs)) _) as [vf l].
    cbn [fst snd]. rewrite <- app_assoc. cbn [app].
    replace (S (Dynamics.drawn rs) + n)%nat
      with (Dynamics.drawn rs + S n)%nat by lia.
    reflexivity.
Qed.

Lemma unroll_length dev (n : nat) :
  forall i k v, List.length (snd (unroll sigma next out dev n i k v)) = n.
Proof.
  induction n as [|n IH]; intros i k v; [reflexivity|].
  cbn [unroll]. cbv zeta.
  specialize (IH (i + 1)%Z (S k) (next i v (0 + dev k * sigma))).
  destruct (unroll sigma next out dev n _ _ _) as [vf l].
  cbn [snd List.length] in *. now rewrite IH.
Qed.

(** Every element appended is an [out] value. *)
Lemma unroll_Forall (P : Q -> Prop) dev (n : nat) :
  (forall v, P (out v)) ->
  forall i k v, Forall P (snd (unroll sigma next out dev n i k v)).
Proof.
  intros Hout. induction n as [|n IH]; intros i k v; [constructor|].
  cbn [unroll]. cbv zeta.
  specialize (IH (i + 1)%Z (S k) (next i v (0 + dev k * sigma))).
  destruct (unroll sigma next out dev n _ _ _) as [vf l].
  cbn [snd] in *. constructor; [apply Hout | exact IH].
Qed.

End RecurrenceFacts.

(** The last element of [a :: l] is the last of [l], or [a] when [l] is
    empty. *)
Lemma last_cons {A} (l : list A) :
  forall a d, last (a :: l) d = last l a.
Proof.
  induction l as [|b l IH]; intros a d; [reflexivity|].
  change (last (a :: b :: l) d) with (last (b :: l) d).
  rewrite !IH. reflexivity.
Qed.

(** The mean-reverting recurrence is the instance of [unroll] that appends
    the running value itself. *)
Lemma unroll_mean_reversion target intensity sigma dev (n : nat) :
  forall i k v,
    unroll sigma (fun _ v g => v + ((target - v) * intensity + g))
           (fun v => v) dev n i k v
    = (last (Recurrence.mean_reversion target intensity sigma dev n k v) v,
       Recurrence.mean_reversion target intensity sigma dev n k v).
Proof.
  induction n as [|n IH]; intros i k v; [reflexivity|].
  cbn [unroll Recurrence.mean_reversion]. cbv zeta.
  rewrite IH. f_equal. symmetry. apply last_cons.
Qed.

Lemma mean_reversion_length target intensity sigma dev (n : nat) :
  forall k v,
    List.length (Recurrence.mean_reversion target intensity sigma dev n k v) = n.
Proof.
  induction n as [|n IH]; intros k v; [reflexivity|].
  cbn [Recurrence.mean_reversion List.length]. cbv zeta. now rewrite IH.
Qed.

(** ** dynamics.py: the generators *)

Lemma mean_revert_pin_body_shape self target intensity noise i st rs :
  Dynamics.mean_revert_pin_body self target intensity noise i st rs
  = step_body (Dynamics.atr self * noise)
              (fun _ v g => v + ((target - v) * intensity + g))
              (fun v => v) i st rs.
Proof. destruct st. reflexivity. Qed.

Lemma false_breakout_towards_shape self target_wall i st rs :
  Dynamics.false_breakout_towards self target_wall i st rs
  = step_body (Dynamics.atr self * 0.1)
              (fun _ v g => v + ((target_wall - v) * 0.1 + g))
              (fun v => v) i st rs.
Proof. destruct st. reflexivity. Qed.

Lemma false_breakout_back_shape self recovery i st rs :
  Dynamics.false_breakout_back self recovery i st rs
  = step_body (Dynamics.atr self * 0.2)
              (fun _ v g => v + ((Dynamics.start_spot self - v) * recovery + g))
              (fun v => v) i st rs.
Proof. destruct st. reflexivity. Qed.

Lemma generate_vol_path_body_shape start_iv target shock_at i st rs :
  Dynamics.generate_vol_path_body start_iv target shock_at i st rs
  = step_body (start_iv * 0.05)
              (fun i iv g =>
                 let iv := if Dynamics.shock_now shock_at i
                           then iv * 1.5 else iv in
                 iv + ((target - iv) * 0.05 + g))
              (Py.max 0.01) i st rs.
Proof. destruct st. reflexivity. Qed.

(** [mean_revert_pin]: the seed, then the recurrence. *)
Lemma mean_revert_pin_unrolled self target intensity noise rs :
  fst (Dynamics.mean_revert_pin self target intensity noise rs)
  = Dynamics.start_spot self
    :: Recurrence.mean_reversion
         target intensity (Dynamics.atr self * noise) (Dynamics.deviates rs)
         (Z.to_nat (Dynamics.steps self - 1)) (Dynamics.drawn rs)
         (Dynamics.start_spot self).
Proof.
  unfold Dynamics.mean_revert_pin, Dynamics.for_range.
  unfold Dynamics.bind at 1.
  erewrite for_from_ext
    by (intros; apply mean_revert_pin_body_shape).
  rewrite for_from_unroll, unroll_mean_reversion. reflexivity.
Qed.

(** [false_breakout]: the two recurrences, one after the other; the second
    starts from the last value of the first and draws the next deviates. *)
Lemma false_breakout_unrolled self target_wall breach_depth recovery rs :
  fst (Dynamics.false_breakout self target_wall breach_depth recovery rs)
  = Recurrence.mean_reversion
      target_wall 0.1 (Dynamics.atr self * 0.1) (Dynamics.deviates rs)
      (Z.to_nat (Dynamics.steps self / 2)) (Dynamics.drawn rs)
      (Dynamics.start_spot self)
    ++ Recurrence.mean_reversion
         (Dynamics.start_spot self) recovery (Dynamics.atr self * 0.2)
         (Dynamics.deviates rs)
         (Z.to_nat (Dynamics.steps self - Dynamics.steps self / 2))
         (Dynamics.drawn rs + Z.to_nat (Dynamics.steps self / 2))
         (last (Recurrence.mean_reversion
                  target_wall 0.1 (Dynamics.atr self * 0.1)
                  (Dynamics.deviates rs)
                  (Z.to_nat (Dynamics.steps self / 2)) (Dynamics.drawn rs)
                  (Dynamics.start_spot self))
               (Dynamics.start_spot self)).
Proof.
  unfold Dynamics.false_breakout, Dynamics.for_range.
  unfold Dynamics.bind at 1.
  erewrite for_from_ext
    by (intros; apply false_breakout_towards_shape).
  rewrite for_from_unroll, unroll_mean_reversion. cbv zeta. cbn [fst snd app].
  unfold Dynamics.bind at 1.
  erewrite for_from_ext
    by (intros; apply false_breakout_back_shape).
  rewrite for_from_unroll, unroll_mean_reversion. reflexivity.
Qed.

(** [generate_vol_path]: the seed, then the floored recurrence. *)
Lemma generate_vol_path_unrolled self start_iv target_iv shock_at rs :
  fst (Dynamics.generate_vol_path self start_iv target_iv shock_at rs)
  = start_iv
    :: snd (unroll (start_iv * 0.05)
                   (fun i iv g =>
                      let iv := if Dynamics.shock_now shock_at i
                                then iv * 1.5 else iv in
                      iv + ((Dynamics.or_default target_iv start_iv - iv)
                            * 0.05 + g))
                   (Py.max 0.01) (Dynamics.deviates rs)
                   (Z.to_nat (Dynamics.steps self - 1)) 0
                   (Dynamics.drawn rs) start_iv).
Proof.
  unfold Dynamics.generate_vol_path, Dynamics.for_range.
  unfold Dynamics.bind at 1.
  erewrite for_from_ext
    by (intros; apply generate_vol_path_body_shape).
  rewrite for_from_unroll. reflexivity.
Qed.

Lemma max_lower_bound (a b : Q) : a <= Py.max a b.
Proof.
  unfold Py.max. destruct (b >? a) eqn:E.
  - apply gtb_gt in E. now apply Qlt_le_weak.
  - apply Qle_refl.
Qed.

(** C5: for [steps >= 1], [mean_revert_pin] returns exactly [steps]
    elements, the first of which is [start_spot] itself whatever the
    generator's deviates are. *)
Theorem mean_revert_pin_length_and_seed
        (self : Dynamics.PathGenerator) (target intensity noise : Q)
        (rs : Dynamics.RandomState) :
  (1 <= Dynamics.steps self)%Z ->
  Z.of_nat
    (List.length (fst (Dynamics.mean_revert_pin self target intensity noise rs)))
  = Dynamics.steps self /\
  hd_error (fst (Dynamics.mean_revert_pin self target intensity noise rs))
  = Some (Dynamics.start_spot self).
Proof.
  intros Hsteps. rewrite mean_revert_pin_unrolled. split; [|reflexivity].
  cbn [List.length]. rewrite mean_reversion_length. lia.
Qed.

Lemma mean_revert_pin_length_and_seed_example :
  Z.of_nat
    (List.length
       (fst (Dynamics.mean_revert_pin
               {| Dynamics.start_spot := 694.0; Dynamics.atr := 2.8;
                  Dynamics.steps := 200 |}
               692.5 0.1 0.2
               {| Dynamics.deviates := fun n => inject_Z (Z.of_nat n) - 3;
                  Dynamics.drawn := 0 |})))
  = 200%Z /\
  hd_error
    (fst (Dynamics.mean_revert_pin
            {| Dynamics.start_spot := 694.0; Dynamics.atr := 2.8;
               Dynamics.steps := 200 |}
            692.5 0.1 0.2
            {| Dynamics.deviates := fun n => inject_Z (Z.of_nat n) - 3;
               Dynamics.drawn := 0 |}))
  = Some 694.0.
Proof.
  apply (mean_revert_pin_length_and_seed
           {| Dynamics.start_spot := 694.0; Dynamics.atr := 2.8;
              Dynamics.steps := 200 |}).
  cbn. lia.
Defined.

Lemma half_positive (n : Z) : (2 <= n)%Z -> exists m, Z.to_nat (n / 2) = S m.
Proof.
  intros H.
  pose proof (Z.div_mod n 2 ltac:(lia)) as Hdm.
  pose proof (Z.mod_pos_bound n 2 ltac:(lia)) as Hr.
  exists (Nat.pred (Z.to_nat (n / 2))). lia.
Qed.

Lemma half_of_one (n : Z) :
  (1 <= n)%Z -> (n < 2)%Z ->
  Z.to_nat (n / 2) = O /\ Z.to_nat (n - n / 2) = 1%nat.
Proof.
  intros H1 H2. assert (n = 1%Z) as -> by lia. split; reflexivity.
Qed.

(** C6: for [steps >= 1], [false_breakout] returns exactly [steps]
    elements: [steps // 2] from phase 1, which mean-reverts toward
    [target_wall] with intensity 0.1, then the remainder from phase 2, which
    mean-reverts toward [start_spot] with intensity [recovery].  The first
    element is already one step advanced from [start_spot], and the result
    does not depend on [breach_depth]: the overshoot target is unused. *)
Theorem false_breakout_two_phases
        (self : Dynamics.PathGenerator) (target_wall breach_depth recovery : Q)
        (rs : Dynamics.RandomState) :
  (1 <= Dynamics.steps self)%Z ->
  exists phase1 phase2,
    fst (Dynamics.false_breakout self target_wall breach_depth recovery rs)
    = phase1 ++ phase2 /\
    Z.of_nat (List.length phase1) = (Dynamics.steps self / 2)%Z /\
    Z.of_nat (List.length phase2)
    = (Dynamics.steps self - Dynamics.steps self / 2)%Z /\
    Z.of_nat
      (List.length
         (fst (Dynamics.false_breakout self target_wall breach_depth
                                       recovery rs)))
    = Dynamics.steps self /\
    phase1
    = Recurrence.mean_reversion
        target_wall 0.1 (Dynamics.atr self * 0.1) (Dynamics.deviates rs)
        (Z.to_nat (Dynamics.steps self / 2)) (Dynamics.drawn rs)
        (Dynamics.start_spot self) /\
    phase2
    = Recurrence.mean_reversion
        (Dynamics.start_spot self) recovery (Dynamics.atr self * 0.2)
        (Dynamics.deviates rs)
        (Z.to_nat (Dynamics.steps self - Dynamics.steps self / 2))
        (Dynamics.drawn rs + List.length phase1)
        (last phase1 (Dynamics.start_spot self)) /\
    hd_error
      (fst (Dynamics.false_breakout self target_wall breach_depth recovery rs))
    = Some
        (if (2 <=? Dynamics.steps self)%Z
         then Dynamics.start_spot self
              + ((target_wall - Dynamics.start_spot self) * 0.1
                 + (0 + Dynamics.deviates rs (Dynamics.drawn rs)
                        * (Dynamics.atr self * 0.1)))
         else Dynamics.start_spot self
              + ((Dynamics.start_spot self - Dynamics.start_spot self)
                 * recovery
                 + (0 + Dynamics.deviates rs (Dynamics.drawn rs)
                        * (Dynamics.atr self * 0.2)))) /\
    (forall breach_depth',
        Dynamics.false_breakout self target_wall breach_depth' recovery rs
        = Dynamics.false_breakout self target_wall breach_depth recovery rs).
Proof.
  intros Hsteps.
  pose proof (Z.div_mod (Dynamics.steps self) 2 ltac:(lia)) as Hdm.
  pose proof (Z.mod_pos_bound (Dynamics.steps self) 2 ltac:(lia)) as Hr.
  rewrite false_breakout_unrolled.
  eexists. eexists. split; [reflexivity|].
  rewrite length_app, !mean_reversion_length.
  split; [lia|]. split; [lia|]. split; [lia|].
  split; [reflexivity|]. split; [reflexivity|]. split; [|reflexivity].
  destruct (2 <=? Dynamics.steps self)%Z eqn:E.
  - apply Z.leb_le in E. destruct (half_positive _ E) as [m ->].
    reflexivity.
  - apply Z.leb_gt in E.
    destruct (half_of_one _ Hsteps E) as [-> ->]. rewrite Nat.add_0_r.
    reflexivity.
Qed.

Lemma false_breakout_two_phases_example :
  exists phase1 phase2,
    fst (Dynamics.false_breakout
           {| Dynamics.start_spot := 694.0; Dynamics.atr := 2.8;
              Dynamics.steps := 5 |}
           700.0 1.5 0.8
           {| Dynamics.deviates := fun n => inject_Z (Z.of_nat n) - 1;
              Dynamics.drawn := 0 |})
    = phase1 ++ phase2 /\
    List.length phase1 = 2%nat /\ List.length phase2 = 3%nat.
Proof.
  destruct (false_breakout_two_phases
              {| Dynamics.start_spot := 694.0; Dynamics.atr := 2.8;
                 Dynamics.steps := 5 |}
              700.0 1.5 0.8
              {| Dynamics.deviates := fun n => inject_Z (Z.of_nat n) - 1;
                 Dynamics.drawn := 0 |})
    as (phase1 & phase2 & Heq & H1 & H2 & _).
  - cbn. lia.
  - exists phase1, phase2. split; [exact Heq|].
    cbn in H1, H2. change (5 / 2)%Z with 2%Z in *. lia.
Defined.

(** C2, as stated, fails: the first element is [start_iv] itself, which is
    never floored. *)
Lemma generate_vol_path_seed_below_floor :
  ~ Forall (fun v => 0.01 <= v)
      (fst (Dynamics.generate_vol_path
              {| Dynamics.start_spot := 694.0; Dynamics.atr := 2.8;
                 Dynamics.steps := 5 |}
              0.005 None None
              {| Dynamics.deviates := fun _ => 0; Dynamics.drawn := 0 |})).
Proof.
  rewrite generate_vol_path_unrolled. intros H.
  apply Forall_inv in H. vm_compute in H. apply H. reflexivity.
Qed.

(** C2 (amended): the sequence returned by [generate_vol_path] is
    [start_iv] followed by elements none of which is below 0.01; so no
    element at all is below 0.01 when [start_iv] is not. *)
Theorem generate_vol_path_floor
        (self : Dynamics.PathGenerator) (start_iv : Q)
        (target_iv : option Q) (shock_at : option Z)
        (rs : Dynamics.RandomState) :
  exists rest,
    fst (Dynamics.generate_vol_path self start_iv target_iv shock_at rs)
    = start_iv :: rest /\
    Forall (fun v => 0.01 <= v) rest /\
    (0.01 <= start_iv ->
     Forall (fun v => 0.01 <= v)
            (fst (Dynamics.generate_vol_path self start_iv target_iv
                                             shock_at rs))).
Proof.
  rewrite generate_vol_path_unrolled.
  eexists. split; [reflexivity|].
  assert (Hrest : forall n i k v,
             Forall (fun v => 0.01 <= v)
                    (snd (unroll (start_iv * 0.05)
                            (fun i iv g =>
                               let iv := if Dynamics.shock_now shock_at i
                                         then iv * 1.5 else iv in
                               iv + ((Dynamics.or_default target_iv start_iv
                                      - iv) * 0.05 + g))
                            (Py.max 0.01) (Dynamics.deviates rs) n i k v))).
  { intros n i k v. apply unroll_Forall. intros w. apply max_lower_bound. }
  split; [apply Hrest|].
  intros Hstart. constructor; [exact Hstart | apply Hrest].
Qed.

(** With the scenario runner's [start_iv = 0.15] the whole path is at or
    above the floor. *)
Lemma generate_vol_path_floor_scenario :
  Forall (fun v => 0.01 <= v)
         (fst (Dynamics.generate_vol_path
                 {| Dynamics.start_spot := 694.0; Dynamics.atr := 2.8;
                    Dynamics.steps := 5 |}
                 0.15 None (Some 1%Z)
                 {| Dynamics.deviates := fun _ => -100;
                    Dynamics.drawn := 0 |})).
Proof.
  destruct (generate_vol_path_floor
              {| Dynamics.start_spot := 694.0; Dynamics.atr := 2.8;
                 Dynamics.steps := 5 |}
              0.15 None (Some 1%Z)
              {| Dynamics.deviates := fun _ => -100; Dynamics.drawn := 0 |})
    as (rest & _ & _ & Hall).
  apply Hall. discriminate.
Defined.

(** A shock followed by strongly negative deviates: the running value goes
    negative, the emitted values stay at the floor. *)
Example generate_vol_path_floor_under_shock :
  Forall2 Qeq
    (fst (Dynamics.generate_vol_path
            {| Dynamics.start_spot := 694.0; Dynamics.atr := 2.8;
               Dynamics.steps := 5 |}
            0.15 None (Some 1%Z)
            {| Dynamics.deviates := fun _ => -100; Dynamics.drawn := 0 |}))
    [0.15; 0.01; 0.01; 0.01; 0.01].
Proof. vm_compute. repeat constructor. Qed.

(** ** [generate_vol_path]: arguments that are false values *)

Lemma shock_now_none_or_zero (i : Z) :
  Dynamics.shock_now (Some 0%Z) i = Dynamics.shock_now None i.
Proof. reflexivity. Qed.

(** The loop visits [i = 0 .. steps - 2]; a shock index outside
    [1 .. steps - 2] never fires. *)
Lemma shock_now_out_of_range (s i n : Z) :
  (0 <= i < n)%Z -> (s < 1 \/ n <= s)%Z ->
  Dynamics.shock_now (Some s) i = false.
Proof.
  intros Hi Hs. unfold Dynamics.shock_now, Py.truthy_int.
  destruct (Z.eqb_spec s 0) as [-> | Hs0]; [reflexivity|].
  destruct (Z.eqb_spec i s) as [-> | Hne]; [lia | reflexivity].
Qed.

Lemma shock_now_in_range (s : Z) :
  (1 <= s)%Z -> Dynamics.shock_now (Some s) s = true.
Proof.
  intros Hs. unfold Dynamics.shock_now, Py.truthy_int.
  rewrite Z.eqb_refl.
  destruct (Z.eqb_spec s 0); [lia | reflexivity].
Qed.

Lemma generate_vol_path_body_no_shock start_iv target shock_at i st rs :
  Dynamics.shock_now shock_at i = false ->
  Dynamics.generate_vol_path_body start_iv target shock_at i st rs
  = Dynamics.generate_vol_path_body start_iv target None i st rs.
Proof.
  intros H. unfold Dynamics.generate_vol_path_body.
  destruct st as [iv path]. rewrite H. reflexivity.
Qed.

(** C9: [shock_at = 0] is a false value, so the shock never fires and the
    call returns what a call without shock returns on the same generator
    state; the same holds for every shock index outside
    [1 .. steps - 2], and an index inside that range does fire, at the
    iteration of that index. *)
Theorem generate_vol_path_shock_zero
        (self : Dynamics.PathGenerator) (start_iv : Q)
        (target_iv : option Q) (rs : Dynamics.RandomState) :
  Dynamics.generate_vol_path self start_iv target_iv (Some 0%Z) rs
  = Dynamics.generate_vol_path self start_iv target_iv None rs /\
  (forall s : Z,
      (s < 1 \/ Dynamics.steps self - 2 < s)%Z ->
      Dynamics.generate_vol_path self start_iv target_iv (Some s) rs
      = Dynamics.generate_vol_path self start_iv target_iv None rs) /\
  (forall s : Z,
      (1 <= s <= Dynamics.steps self - 2)%Z ->
      Dynamics.shock_now (Some s) s = true).
Proof.
  assert (Hout : forall s : Z,
             (s < 1 \/ Dynamics.steps self - 2 < s)%Z ->
             Dynamics.generate_vol_path self start_iv target_iv (Some s) rs
             = Dynamics.generate_vol_path self start_iv target_iv None rs).
  { intros s Hs. unfold Dynamics.generate_vol_path.
    unfold Dynamics.bind.
    rewrite (for_range_ext
               _ (Dynamics.generate_vol_path_body
                    start_iv (Dynamics.or_default target_iv start_iv)
                    (Some s))
               (Dynamics.generate_vol_path_body
                  start_iv (Dynamics.or_default target_iv start_iv) None));
      [reflexivity|].
    intros j st rs' Hj. apply generate_vol_path_body_no_shock.
    apply (shock_now_out_of_range s j (Dynamics.steps self - 1)); lia. }
  split; [apply Hout; lia|]. split; [exact Hout|].
  intros s Hs. apply shock_now_in_range. lia.
Qed.

(** With [steps = 5] the loop visits [i = 0 .. 3]: the shock indices 0 and
    4 leave the path as it is without shock. *)
Lemma generate_vol_path_shock_zero_example :
  Dynamics.generate_vol_path
    {| Dynamics.start_spot := 694.0; Dynamics.atr := 2.8;
       Dynamics.steps := 5 |}
    0.15 None (Some 0%Z)
    {| Dynamics.deviates := fun n => inject_Z (Z.of_nat n) - 1;
       Dynamics.drawn := 0 |}
  = Dynamics.generate_vol_path
      {| Dynamics.start_spot := 694.0; Dynamics.atr := 2.8;
         Dynamics.steps := 5 |}
      0.15 None None
      {| Dynamics.deviates := fun n => inject_Z (Z.of_nat n) - 1;
         Dynamics.drawn := 0 |} /\
  Dynamics.generate_vol_path
    {| Dynamics.start_spot := 694.0; Dynamics.atr := 2.8;
       Dynamics.steps := 5 |}
    0.15 None (Some 4%Z)
    {| Dynamics.deviates := fun n => inject_Z (Z.of_nat n) - 1;
       Dynamics.drawn := 0 |}
  = Dynamics.generate_vol_path
      {| Dynamics.start_spot := 694.0; Dynamics.atr := 2.8;
         Dynamics.steps := 5 |}
      0.15 None None
      {| Dynamics.deviates := fun n => inject_Z (Z.of_nat n) - 1;
         Dynamics.drawn := 0 |}.
Proof.
  destruct (generate_vol_path_shock_zero
              {| Dynamics.start_spot := 694.0; Dynamics.atr := 2.8;
                 Dynamics.steps := 5 |}
              0.15 None
              {| Dynamics.deviates := fun n => inject_Z (Z.of_nat n) - 1;
                 Dynamics.drawn := 0 |})
    as (Hzero & Hout & _).
  split; [exact Hzero|]. apply Hout. right. reflexivity.
Defined.

(** A shock index inside the range changes the path. *)
Example generate_vol_path_shock_in_range :
  fst (Dynamics.generate_vol_path
         {| Dynamics.start_spot := 694.0; Dynamics.atr := 2.8;
            Dynamics.steps := 5 |}
         0.15 None (Some 1%Z)
         {| Dynamics.deviates := fun _ => 0; Dynamics.drawn := 0 |})
  <> fst (Dynamics.generate_vol_path
            {| Dynamics.start_spot := 694.0; Dynamics.atr := 2.8;
               Dynamics.steps := 5 |}
            0.15 None None
            {| Dynamics.deviates := fun _ => 0; Dynamics.drawn := 0 |}).
Proof. vm_compute. discriminate. Qed.

Lemma or_default_zero (t start_iv : Q) :
  t == 0 -> Dynamics.or_default (Some t) start_iv = start_iv.
Proof.
  intros Ht. unfold Dynamics.or_default, Py.truthy.
  apply Qeq_bool_iff in Ht. now rewrite Ht.
Qed.

(** C10: an explicit target equal to zero is a false value, so the drift
    target is [start_iv], and the call returns what a call without target
    returns on the same generator state. *)
Theorem generate_vol_path_zero_target
        (self : Dynamics.PathGenerator) (start_iv t : Q)
        (shock_at : option Z) (rs : Dynamics.RandomState) :
  t == 0 ->
  Dynamics.or_default (Some t) start_iv = start_iv /\
  Dynamics.generate_vol_path self start_iv (Some t) shock_at rs
  = Dynamics.generate_vol_path self start_iv None shock_at rs.
Proof.
  intros Ht. split; [now apply or_default_zero|].
  unfold Dynamics.generate_vol_path.
  rewrite (or_default_zero _ _ Ht). reflexivity.
Qed.

Lemma generate_vol_path_zero_target_example :
  Dynamics.or_default (Some 0.0) 0.15 = 0.15 /\
  Dynamics.generate_vol_path
    {| Dynamics.start_spot := 694.0; Dynamics.atr := 2.8;
       Dynamics.steps := 5 |}
    0.15 (Some 0.0) None
    {| Dynamics.deviates := fun n => inject_Z (Z.of_nat n) - 1;
       Dynamics.drawn := 0 |}
  = Dynamics.generate_vol_path
      {| Dynamics.start_spot := 694.0; Dynamics.atr := 2.8;
         Dynamics.steps := 5 |}
      0.15 None None
      {| Dynamics.deviates := fun n => inject_Z (Z.of_nat n) - 1;
         Dynamics.drawn := 0 |}.
Proof.
  apply (generate_vol_path_zero_target
           {| Dynamics.start_spot := 694.0; Dynamics.atr := 2.8;
              Dynamics.steps := 5 |}
           0.15 0.0 None).
  reflexivity.
Defined.

(** * Further properties of the envelope and of the telemetry record *)

(** ** Zero distances *)



From Stdlib Require Import Lqa.

(** ** Regimes and flags *)

(** The four tests of the cascade, as propositions. *)
Ltac cascade_tests x y :=
  destruct (y >? 2.5) eqn:?Hy1; destruct (x >? 4.5) eqn:?Hx1;
  destruct (x <? 0.3) eqn:?Hx2;
  destruct (y >? 1.5) eqn:?Hy2; destruct (x >? 2.5) eqn:?Hx3;
  repeat match goal with
         | H : (_ >? _) = true |- _ => apply gtb_gt in H
         | H : (_ >? _) = false |- _ => apply gtb_ngt in H
         | H : (_ <? _) = true |- _ => apply ltb_lt in H
         | H : (_ <? _) = false |- _ => apply ltb_nlt in H
         end.


Lemma compute_step_eq config spot iv hv timestamp :
  exists st,
    Envelope.evaluate_state config spot iv hv = Some st /\
    Envelope.x st
    = Qabs (spot - Envelope.flip config) / Envelope.airspeed_den config /\
    Envelope.is_overspeed st = (Envelope.x st >? 3.0) /\
    Envelope.is_stall st = (Envelope.x st <? 0.2) /\
    Telemetry.compute_step config spot iv hv timestamp
    = Some {| Telemetry.timestamp := timestamp;
              Telemetry.spot := Py.round spot 2;
              Telemetry.iv := Py.round iv 4;
              Telemetry.hv := Py.round hv 4;
              Telemetry.x := Py.round (Envelope.x st) 3;
              Telemetry.y := Py.round (Envelope.y st) 3;
              Telemetry.z := Py.round (Envelope.z st) 3;
              Telemetry.regime :=
                Envelope.get_regime (Envelope.x st) (Envelope.y st);
              Telemetry.flags :=
                (if Envelope.is_breached st then [Telemetry.BREACH] else [])
                  ++ (if Envelope.is_overspeed st
                      then [Telemetry.OVERSPEED] else [])
                  ++ (if Envelope.is_stall st
                      then [Telemetry.STALL] else []) |}.
Proof.
  unfold Telemetry.compute_step. rewrite evaluate_state_eq. cbv zeta.
  eexists. split; [reflexivity|].
  cbn [Envelope.x Envelope.y Envelope.z Envelope.is_breached
       Envelope.is_overspeed Envelope.is_stall].
  repeat split. now rewrite flags_order.
Qed.

(** X6: the flags of a record are distinct, and OVERSPEED and STALL never
    occur together, so a record carries at most two flags. *)
Theorem flags_overspeed_excludes_stall
        (config : Envelope.EnvelopeConfig) (spot iv hv : Q) (timestamp : Z) :
  exists r,
    Telemetry.compute_step config spot iv hv timestamp = Some r /\
    ~ (In Telemetry.OVERSPEED (Telemetry.flags r)
       /\ In Telemetry.STALL (Telemetry.flags r)) /\
    NoDup (Telemetry.flags r) /\
    (List.length (Telemetry.flags r) <= 2)%nat.
Proof.
  destruct (compute_step_eq config spot iv hv timestamp)
    as (st & _ & _ & Hover & Hstall & ->).
  eexists. split; [reflexivity|]. cbn [Telemetry.flags].
  rewrite Hover, Hstall.
  destruct (Envelope.x st >? 3.0) eqn:E1; destruct (Envelope.x st <? 0.2) eqn:E2.
  - apply gtb_gt in E1. apply ltb_lt in E2. lra.
  - destruct (Envelope.is_breached st); cbn;
      (split; [intros [_ H]; intuition discriminate|]);
      (split; [repeat constructor; cbn; intuition discriminate | lia]).
  - destruct (Envelope.is_breached st); cbn;
      (split; [intros [H _]; intuition discriminate|]);
      (split; [repeat constructor; cbn; intuition discriminate | lia]).
  - destruct (Envelope.is_breached st); cbn;
      (split; [intros [H _]; intuition discriminate|]);
      (split; [repeat constructor; cbn; intuition discriminate | lia]).
Qed.

(** X7: flags and regime agree.  An OVERSPEED record is MANEUVER or
    RUPTURE; a STALL record is TAXI or RUPTURE; a TAXI record is never
    OVERSPEED; a CRUISE record carries no flag other than BREACH. *)
Theorem flags_consistent_with_regime
        (config : Envelope.EnvelopeConfig) (spot iv hv : Q) (timestamp : Z) :
  exists r,
    Telemetry.compute_step config spot iv hv timestamp = Some r /\
    (In Telemetry.OVERSPEED (Telemetry.flags r) ->
     Telemetry.regime r = Envelope.MANEUVER
     \/ Telemetry.regime r = Envelope.RUPTURE) /\
    (In Telemetry.STALL (Telemetry.flags r) ->
     Telemetry.regime r = Envelope.TAXI
     \/ Telemetry.regime r = Envelope.RUPTURE) /\
    (Telemetry.regime r = Envelope.TAXI ->
     ~ In Telemetry.OVERSPEED (Telemetry.flags r)) /\
    (Telemetry.regime r = Envelope.CRUISE ->
     Telemetry.flags r = [] \/ Telemetry.flags r = [Telemetry.BREACH]).
Proof.
  destruct (compute_step_eq config spot iv hv timestamp)
    as (st & _ & _ & Hover & Hstall & ->).
  eexists. split; [reflexivity|]. cbn [Telemetry.flags Telemetry.regime].
  rewrite Hover, Hstall. unfold Envelope.get_regime.
  set (x := Envelope.x st). set (y := Envelope.y st).
  destruct (x >? 3.0) eqn:E1; destruct (x <? 0.2) eqn:E2;
    [apply gtb_gt in E1 | apply gtb_gt in E1 | apply gtb_ngt in E1
     | apply gtb_ngt in E1];
    [apply ltb_lt in E2 | apply ltb_nlt in E2 | apply ltb_lt in E2
     | apply ltb_nlt in E2];
    cascade_tests x y; try lra; cbn [orb];
      destruct (Envelope.is_breached st); cbn;
        repeat split; intros; intuition (try discriminate; auto).
Qed.

(** ** Sign of rounded values *)



(** * Further properties of the path generators *)

Lemma breakout_body_shape self direction speed noise i st rs :
  Dynamics.breakout_body self direction speed noise i st rs
  = step_body (Dynamics.atr self * noise)
              (fun _ v g => v + (direction * Dynamics.atr self * speed + g))
              (fun v => v) i st rs.
Proof. destruct st. reflexivity. Qed.

Lemma unroll_snd_S sigma next out dev (n : nat) i k v :
  snd (unroll sigma next out dev (S n) i k v)
  = out (next i v (0 + dev k * sigma))
    :: snd (unroll sigma next out dev n (i + 1)%Z (S k)
                   (next i v (0 + dev k * sigma))).
Proof.
  cbn [unroll]. cbv zeta.
  destruct (unroll sigma next out dev n _ _ _). reflexivity.
Qed.

Lemma halves_to_nat (n : Z) :
  (Z.to_nat (n / 2) + Z.to_nat (n - n / 2))%nat = Z.to_nat n.
Proof.
  pose proof (Z.div_mod n 2 ltac:(lia)) as Hdm.
  pose proof (Z.mod_pos_bound n 2 ltac:(lia)) as Hr.
  lia.
Qed.

Lemma false_breakout_run self target_wall breach_depth recovery rs :
  exists path,
    Dynamics.false_breakout self target_wall breach_depth recovery rs
    = (path,
       {| Dynamics.deviates := Dynamics.deviates rs;
          Dynamics.drawn := Dynamics.drawn rs
                            + Z.to_nat (Dynamics.steps self) |}) /\
    List.length path = Z.to_nat (Dynamics.steps self).
Proof.
  unfold Dynamics.false_breakout, Dynamics.for_range.
  unfold Dynamics.bind at 1.
  erewrite for_from_ext by (intros; apply false_breakout_towards_shape).
  rewrite for_from_unroll. cbv zeta.
  unfold Dynamics.bind at 1.
  erewrite for_from_ext by (intros; apply false_breakout_back_shape).
  rewrite for_from_unroll. cbv zeta.
  cbn [Dynamics.deviates Dynamics.drawn Dynamics.ret fst snd app].
  unfold Dynamics.ret. cbn [snd].
  eexists. split.
  - rewrite <- Nat.add_assoc, halves_to_nat. reflexivity.
  - rewrite length_app, !unroll_length. apply halves_to_nat.
Qed.

Lemma seeded_run sigma next out (self : Dynamics.PathGenerator) seed rs :
  exists rest,
    Dynamics.bind
      (Dynamics.for_from (Z.to_nat (Dynamics.steps self - 1)) 0
                         (step_body sigma next out) (seed, [seed]))
      (fun st => Dynamics.ret (snd st)) rs
    = (seed :: rest,
       {| Dynamics.deviates := Dynamics.deviates rs;
          Dynamics.drawn := Dynamics.drawn rs
                            + Z.to_nat (Dynamics.steps self - 1) |}) /\
    List.length rest = Z.to_nat (Dynamics.steps self - 1).
Proof.
  unfold Dynamics.bind. rewrite for_from_unroll. cbv zeta.
  unfold Dynamics.ret. cbn [snd app].
  eexists. split; [reflexivity|]. apply unroll_length.
Qed.

Lemma mean_revert_pin_run self target intensity noise rs :
  exists rest,
    Dynamics.mean_revert_pin self target intensity noise rs
    = (Dynamics.start_spot self :: rest,
       {| Dynamics.deviates := Dynamics.deviates rs;
          Dynamics.drawn := Dynamics.drawn rs
                            + Z.to_nat (Dynamics.steps self - 1) |}) /\
    List.length rest = Z.to_nat (Dynamics.steps self - 1).
Proof.
  unfold Dynamics.mean_revert_pin, Dynamics.for_range.
  unfold Dynamics.bind at 1.
  erewrite for_from_ext by (intros; apply mean_revert_pin_body_shape).
  apply seeded_run.
Qed.

Lemma breakout_run self direction speed noise rs :
  exists rest,
    Dynamics.breakout self direction speed noise rs
    = (Dynamics.start_spot self :: rest,
       {| Dynamics.deviates := Dynamics.deviates rs;
          Dynamics.drawn := Dynamics.drawn rs
                            + Z.to_nat (Dynamics.steps self - 1) |}) /\
    List.length rest = Z.to_nat (Dynamics.steps self - 1).
Proof.
  unfold Dynamics.breakout, Dynamics.for_range.
  unfold Dynamics.bind at 1.
  erewrite for_from_ext by (intros; apply breakout_body_shape).
  apply seeded_run.
Qed.

Lemma generate_vol_path_run self start_iv target_iv shock_at rs :
  exists rest,
    Dynamics.generate_vol_path self start_iv target_iv shock_at rs
    = (start_iv :: rest,
       {| Dynamics.deviates := Dynamics.deviates rs;
          Dynamics.drawn := Dynamics.drawn rs
                            + Z.to_nat (Dynamics.steps self - 1) |}) /\
    List.length rest = Z.to_nat (Dynamics.steps self - 1) /\
    Forall (fun v => 0.01 <= v) rest.
Proof.
  unfold Dynamics.generate_vol_path, Dynamics.for_range.
  unfold Dynamics.bind at 1.
  erewrite for_from_ext by (intros; apply generate_vol_path_body_shape).
  unfold Dynamics.bind. rewrite for_from_unroll. cbv zeta.
  unfold Dynamics.ret. cbn [snd app].
  eexists. split; [reflexivity|]. split; [apply unroll_length|].
  apply unroll_Forall. intros w. apply max_lower_bound.
Qed.

(** X11: what a generator call consumes.  [mean_revert_pin], [breakout] and
    [generate_vol_path] draw [max(steps - 1, 0)] deviates, [false_breakout]
    draws [max(steps, 0)]; none of them changes the sequence of deviates. *)
Theorem generators_draws
        (self : Dynamics.PathGenerator) (rs : Dynamics.RandomState)
        (target intensity noise direction speed : Q)
        (target_wall breach_depth recovery start_iv : Q)
        (target_iv : option Q) (shock_at : option Z) :
  snd (Dynamics.mean_revert_pin self target intensity noise rs)
  = {| Dynamics.deviates := Dynamics.deviates rs;
       Dynamics.drawn := Dynamics.drawn rs
                         + Z.to_nat (Dynamics.steps self - 1) |} /\
  snd (Dynamics.breakout self direction speed noise rs)
  = {| Dynamics.deviates := Dynamics.deviates rs;
       Dynamics.drawn := Dynamics.drawn rs
                         + Z.to_nat (Dynamics.steps self - 1) |} /\
  snd (Dynamics.generate_vol_path self start_iv target_iv shock_at rs)
  = {| Dynamics.deviates := Dynamics.deviates rs;
       Dynamics.drawn := Dynamics.drawn rs
                         + Z.to_nat (Dynamics.steps self - 1) |} /\
  snd (Dynamics.false_breakout self target_wall breach_depth recovery rs)
  = {| Dynamics.deviates := Dynamics.deviates rs;
       Dynamics.drawn := Dynamics.drawn rs
                         + Z.to_nat (Dynamics.steps self) |}.
Proof.
  destruct (mean_revert_pin_run self target intensity noise rs)
    as (? & -> & _).
  destruct (breakout_run self direction speed noise rs) as (? & -> & _).
  destruct (generate_vol_path_run self start_iv target_iv shock_at rs)
    as (? & -> & _).
  destruct (false_breakout_run self target_wall breach_depth recovery rs)
    as (? & -> & _).
  repeat split.
Qed.

(** X12: path lengths for every [steps], also zero and negative ones.  The
    seeded generators return [max(steps, 1)] elements, [false_breakout]
    returns [max(steps, 0)]: for [steps <= 0] the seeded generators still
    return the one-element path [[start]]. *)
Theorem generators_lengths
        (self : Dynamics.PathGenerator) (rs : Dynamics.RandomState)
        (target intensity noise direction speed : Q)
        (target_wall breach_depth recovery start_iv : Q)
        (target_iv : option Q) (shock_at : option Z) :
  Z.of_nat
    (List.length (fst (Dynamics.mean_revert_pin self target intensity noise rs)))
  = Z.max (Dynamics.steps self) 1 /\
  Z.of_nat
    (List.length (fst (Dynamics.breakout self direction speed noise rs)))
  = Z.max (Dynamics.steps self) 1 /\
  Z.of_nat
    (List.length
       (fst (Dynamics.generate_vol_path self start_iv target_iv shock_at rs)))
  = Z.max (Dynamics.steps self) 1 /\
  Z.of_nat
    (List.length
       (fst (Dynamics.false_breakout self target_wall breach_depth
                                     recovery rs)))
  = Z.max (Dynamics.steps self) 0 /\
  ((Dynamics.steps self <= 0)%Z ->
   fst (Dynamics.mean_revert_pin self target intensity noise rs)
   = [Dynamics.start_spot self] /\
   fst (Dynamics.breakout self direction speed noise rs)
   = [Dynamics.start_spot self] /\
   fst (Dynamics.generate_vol_path self start_iv target_iv shock_at rs)
   = [start_iv] /\
   fst (Dynamics.false_breakout self target_wall breach_depth recovery rs)
   = []).
Proof.
  destruct (mean_revert_pin_run self target intensity noise rs)
    as (l1 & -> & H1).
  destruct (breakout_run self direction speed noise rs) as (l2 & -> & H2).
  destruct (generate_vol_path_run self start_iv target_iv shock_at rs)
    as (l3 & -> & H3 & _).
  destruct (false_breakout_run self target_wall breach_depth recovery rs)
    as (l4 & -> & H4).
  cbn [fst List.length].
  repeat split; try lia.
  - destruct l1; [reflexivity | cbn in H1; lia].
  - destruct l2; [reflexivity | cbn in H2; lia].
  - destruct l3; [reflexivity | cbn in H3; lia].
  - destruct l4; [reflexivity | cbn in H4; lia].
Qed.

Lemma generators_lengths_no_steps :
  fst (Dynamics.mean_revert_pin
         {| Dynamics.start_spot := 694.0; Dynamics.atr := 2.8;
            Dynamics.steps := 0 |}
         692.5 0.1 0.2
         {| Dynamics.deviates := fun _ => 1; Dynamics.drawn := 0 |})
  = [694.0] /\
  fst (Dynamics.false_breakout
         {| Dynamics.start_spot := 694.0; Dynamics.atr := 2.8;
            Dynamics.steps := 0 |}
         700.0 1.5 0.8
         {| Dynamics.deviates := fun _ => 1; Dynamics.drawn := 0 |})
  = [].
Proof.
  destruct (generators_lengths
              {| Dynamics.start_spot := 694.0; Dynamics.atr := 2.8;
                 Dynamics.steps := 0 |}
              {| Dynamics.deviates := fun _ => 1; Dynamics.drawn := 0 |}
              692.5 0.1 0.2 1 0.5 700.0 1.5 0.8 0.15 None None)
    as (_ & _ & _ & _ & H).
  destruct H as (H1 & _ & _ & H4); [cbn; lia|].
  split; [exact H1 | exact H4].
Defined.

(** Loop bodies that agree on the first [m] indices give paths that agree
    on their first [m] elements. *)
Lemma unroll_prefix sigma next1 next2 out dev (m : nat) :
  forall (n : nat) (i : Z) (k : nat) (v : Q),
    (forall j w g, (i <= j < i + Z.of_nat m)%Z -> next1 j w g = next2 j w g) ->
    firstn m (snd (unroll sigma next1 out dev n i k v))
    = firstn m (snd (unroll sigma next2 out dev n i k v)).
Proof.
  induction m as [|m IH]; intros n i k v H; [reflexivity|].
  destruct n as [|n]; [reflexivity|].
  rewrite !unroll_snd_S. rewrite (H i) by lia. cbn [firstn]. f_equal.
  apply IH. intros j w g Hj. apply H. lia.
Qed.

Lemma shock_now_before (s i : Z) :
  (i < s)%Z -> Dynamics.shock_now (Some s) i = false.
Proof.
  intros Hi. unfold Dynamics.shock_now.
  destruct (Z.eqb_spec i s) as [-> | Hne]; [lia|].
  apply andb_false_r.
Qed.

(** X13: a shock at index [s] leaves the start of the path alone: the
    elements [0 .. s] are those of the path without shock; the shock shows
    from element [s + 1] on. *)
Theorem generate_vol_path_shock_prefix
        (self : Dynamics.PathGenerator) (start_iv : Q)
        (target_iv : option Q) (s : Z) (rs : Dynamics.RandomState) :
  firstn (S (Z.to_nat s))
         (fst (Dynamics.generate_vol_path self start_iv target_iv (Some s) rs))
  = firstn (S (Z.to_nat s))
           (fst (Dynamics.generate_vol_path self start_iv target_iv None rs)).
Proof.
  rewrite !generate_vol_path_unrolled. cbn [firstn]. f_equal.
  apply unroll_prefix. intros j w g Hj. cbv zeta.
  rewrite shock_now_before by lia. reflexivity.
Qed.

(** * Properties of the scenario runner *)

Lemma index_nonneg {A} (l : list A) (i : Z) :
  (0 <= i)%Z -> Scenario.index l i = nth_error l (Z.to_nat i).
Proof.
  intros Hi. unfold Scenario.index.
  destruct (Z.ltb_spec i 0) as [H | H]; [lia|].
  destruct (Z.ltb_spec i 0) as [H' | H']; [lia | reflexivity].
Qed.

Lemma index_in_range {A} (l : list A) (i : Z) :
  (0 <= i < Z.of_nat (List.length l))%Z ->
  exists a, Scenario.index l i = Some a /\ nth_error l (Z.to_nat i) = Some a.
Proof.
  intros Hi. rewrite index_nonneg by lia.
  destruct (nth_error l (Z.to_nat i)) as [a|] eqn:E; [eauto|].
  apply nth_error_None in E. lia.
Qed.

(** A loop whose body appends one element and neither raises nor draws. *)
Lemma scenario_for_from_collect {A} (P : Z -> A -> Prop)
      (body : Z -> list A -> Scenario.M (list A)) (n : nat) :
  forall (i : Z) (log : list A) (rs : Dynamics.RandomState),
    (forall j log' rs',
        (i <= j < i + Z.of_nat n)%Z ->
        exists a, body j log' rs' = (inr (log' ++ [a]), rs') /\ P j a) ->
    exists l,
      Scenario.for_from n i body log rs = (inr (log ++ l), rs) /\
      List.length l = n /\
      forall k a, nth_error l k = Some a -> P (i + Z.of_nat k)%Z a.
Proof.
  induction n as [|n IH]; intros i log rs H.
  - exists []. rewrite app_nil_r. repeat split.
    intros k a Hk. destruct k; discriminate.
  - destruct (H i log rs ltac:(lia)) as (a & Hbody & Ha).
    destruct (IH (i + 1)%Z (log ++ [a]) rs) as (l & Hl & Hlen & Hnth).
    { intros j log' rs' Hj. apply H. lia. }
    exists (a :: l). cbn [Scenario.for_from]. unfold Scenario.bind at 1.
    rewrite Hbody, Hl, <- app_assoc. split; [reflexivity|].
    split; [cbn; lia|].
    intros k b Hk. destruct k as [|k].
    + injection Hk as <-. now rewrite Z.add_0_r.
    + replace (i + Z.of_nat (S k))%Z with (i + 1 + Z.of_nat k)%Z by lia.
      now apply Hnth.
Qed.

Lemma compute_step_returns config spot iv hv timestamp :
  exists r, Telemetry.compute_step config spot iv hv timestamp = Some r /\
            Telemetry.timestamp r = timestamp.
Proof.
  destruct (compute_step_eq config spot iv hv timestamp)
    as (st & _ & _ & _ & _ & ->).
  eexists. split; reflexivity.
Qed.

(** Every path type yields at least [steps] spots. *)
Lemma generate_spots_length self gen path_type rs :
  (Z.to_nat (Dynamics.steps gen)
   <= List.length (fst (Scenario.generate_spots self gen path_type rs)))%nat.
Proof.
  unfold Scenario.generate_spots.
  destruct (path_type =? "mean_revert")%string;
    [|destruct (path_type =? "breakout")%string;
      [|destruct (path_type =? "false_breakout")%string]].
  - destruct (mean_revert_pin_run gen (Envelope.flip self) 0.1 0.2 rs)
      as (l & -> & Hl). cbn [fst List.length]. lia.
  - destruct (breakout_run gen 1 0.5 0.1 rs) as (l & -> & Hl).
    cbn [fst List.length]. lia.
  - destruct (false_breakout_run gen (Envelope.call_wall self) 1.5 0.8 rs)
      as (l & -> & Hl). cbn [fst]. lia.
  - destruct (mean_revert_pin_run gen (Envelope.flip self) 0.1 0.2 rs)
      as (l & -> & Hl). cbn [fst List.length]. lia.
Qed.

(** [run_scenario], record by record. *)
Lemma run_scenario_records self name path_type steps rs :
  let gen := {| Dynamics.start_spot := 694.0;
                Dynamics.atr := Envelope.atr self;
                Dynamics.steps := steps |} in
  let spots := fst (Scenario.generate_spots self gen path_type rs) in
  let rs1 := snd (Scenario.generate_spots self gen path_type rs) in
  let ivs := fst (Dynamics.generate_vol_path gen 0.15 None None rs1) in
  let rs2 := snd (Dynamics.generate_vol_path gen 0.15 None None rs1) in
  exists log_data,
    Scenario.run_scenario self name path_type steps rs = (inr log_data, rs2) /\
    List.length log_data = Z.to_nat steps /\
    forall k r,
      nth_error log_data k = Some r ->
      exists spot iv,
        nth_error spots k = Some spot /\
        nth_error ivs k = Some iv /\
        Telemetry.compute_step self spot iv 0.12 (Z.of_nat k) = Some r.
Proof.
  intros gen spots rs1 ivs rs2.
  pose proof (generate_spots_length self gen path_type rs) as Hspots.
  fold spots in Hspots. cbn [Dynamics.steps gen] in Hspots.
  assert (Hivs : (Z.to_nat steps <= List.length ivs)%nat).
  { subst ivs. destruct (generate_vol_path_run gen 0.15 None None rs1)
      as (l & -> & Hl & _). cbn [fst List.length Dynamics.steps gen] in *.
    lia. }
  unfold Scenario.run_scenario. fold gen.
  unfold Scenario.bind at 1. unfold Scenario.draw at 1.
  rewrite (surjective_pairing (Scenario.generate_spots self gen path_type rs)).
  fold spots rs1.
  unfold Scenario.bind at 1. unfold Scenario.draw at 1.
  rewrite (surjective_pairing
             (Dynamics.generate_vol_path gen 0.15 None None rs1)).
  fold ivs rs2.
  unfold Scenario.bind at 1. unfold Scenario.for_range.
  destruct (scenario_for_from_collect
              (fun j r =>
                 exists spot iv,
                   nth_error spots (Z.to_nat j) = Some spot /\
                   nth_error ivs (Z.to_nat j) = Some iv /\
                   Telemetry.compute_step self spot iv 0.12 j = Some r)
              (Scenario.run_scenario_body self spots ivs
                                          (Scenario.times 0.12 steps))
              (Z.to_nat steps) 0%Z [] rs2)
    as (l & Hl & Hlen & Hnth).
  { intros j log' rs' Hj.
    destruct (index_in_range spots j ltac:(lia)) as (spot & Hs & Hs').
    destruct (index_in_range ivs j ltac:(lia)) as (iv & Hi & Hi').
    assert (Hh : Scenario.index (Scenario.times 0.12 steps) j = Some 0.12).
    { rewrite index_nonneg by lia. unfold Scenario.times.
      apply nth_error_repeat. lia. }
    destruct (compute_step_returns self spot iv 0.12 j) as (r & Hr & _).
    exists r. split; [|eauto].
    unfold Scenario.run_scenario_body, Scenario.bind, Scenario.or_raise.
    rewrite Hs, Hi, Hh. unfold Scenario.ret. rewrite Hr. reflexivity. }
  rewrite Hl. cbn [app]. exists l. split; [reflexivity|].
  split; [exact Hlen|].
  intros k r Hk. specialize (Hnth k r Hk). cbn [Z.add] in Hnth.
  rewrite Nat2Z.id in Hnth. exact Hnth.
Qed.

Lemma compute_step_fields config spot iv hv timestamp r :
  Telemetry.compute_step config spot iv hv timestamp = Some r ->
  Telemetry.timestamp r = timestamp /\
  Telemetry.spot r = Py.round spot 2 /\
  Telemetry.iv r = Py.round iv 4 /\
  Telemetry.hv r = Py.round hv 4 /\
  Telemetry.y r = Py.round (iv / Envelope.load_den hv) 3.
Proof.
  unfold Telemetry.compute_step. rewrite evaluate_state_eq. cbv zeta.
  intros H. injection H as <-. repeat split.
Qed.

(** [round_half_even] does not go below an integer that is below the
    fraction. *)
Lemma round_half_even_lower (n : Z) (d : positive) (m : Z) :
  (m * Zpos d <= n)%Z -> (m <= Py.round_half_even (n # d))%Z.
Proof.
  intros Hm. pose proof (round_half_even_close n d) as Hc.
  destruct (Z_le_gt_dec m (Py.round_half_even (n # d))) as [H | H];
    [exact H|].
  assert ((Py.round_half_even (n # d) + 1) * Zpos d <= m * Zpos d)%Z by nia.
  lia.
Qed.

(** Rounding does not go below a multiple of the unit that is below the
    value. *)
Lemma round_ge_multiple (m : Z) (ndigits : nat) (x : Q) :
  (m # Py.pow10 ndigits) <= x -> (m # Py.pow10 ndigits) <= Py.round x ndigits.
Proof.
  intros Hx. unfold Py.round. destruct x as [a b].
  replace ((a # b) * inject_Z (Zpos (Py.pow10 ndigits)))
    with ((a * Zpos (Py.pow10 ndigits)) # (b * 1)) by reflexivity.
  rewrite Pos.mul_1_r. unfold Qle in *. cbn [Qnum Qden] in *.
  apply Z.mul_le_mono_nonneg_r; [lia|].
  apply round_half_even_lower. lia.
Qed.

(** X14: [run_scenario] raises neither [IndexError] nor
    [ZeroDivisionError], whatever the configuration, the path type and
    [steps]: it returns [max(steps, 0)] records, and record [k] carries
    timestamp [k]. *)
Theorem run_scenario_returns
        (self : Scenario.ScenarioRunner) (name path_type : string)
        (steps : Z) (rs : Dynamics.RandomState) :
  exists log_data rs',
    Scenario.run_scenario self name path_type steps rs
    = (inr log_data, rs') /\
    Z.of_nat (List.length log_data) = Z.max steps 0 /\
    forall k r,
      nth_error log_data k = Some r -> Telemetry.timestamp r = Z.of_nat k.
Proof.
  destruct (run_scenario_records self name path_type steps rs)
    as (log_data & Hrun & Hlen & Hrec).
  exists log_data. eexists. split; [exact Hrun|]. split; [lia|].
  intros k r Hk. destruct (Hrec k r Hk) as (spot & iv & _ & _ & Hstep).
  apply compute_step_fields in Hstep. apply Hstep.
Qed.

(** X15: in a scenario log every record has [hv = 0.12], an implied
    volatility of at least 0.01 (the floor of [generate_vol_path] survives
    the rounding) and hence a load factor of at least 0.083. *)
Theorem run_scenario_volatilities
        (self : Scenario.ScenarioRunner) (name path_type : string)
        (steps : Z) (rs : Dynamics.RandomState) :
  exists log_data rs',
    Scenario.run_scenario self name path_type steps rs
    = (inr log_data, rs') /\
    Forall (fun r => Telemetry.hv r == 0.12 /\
                     0.01 <= Telemetry.iv r /\
                     0.083 <= Telemetry.y r) log_data.
Proof.
  destruct (run_scenario_records self name path_type steps rs)
    as (log_data & Hrun & _ & Hrec).
  exists log_data. eexists. split; [exact Hrun|].
  apply Forall_forall. intros r Hin.
  apply In_nth_error in Hin as [k Hk].
  destruct (Hrec k r Hk) as (spot & iv & _ & Hiv & Hstep).
  assert (Hfloor : 0.01 <= iv).
  { destruct (generate_vol_path_run
                {| Dynamics.start_spot := 694.0;
                   Dynamics.atr := Envelope.atr self;
                   Dynamics.steps := steps |} 0.15 None None
                (snd (Scenario.generate_spots
                        self
                        {| Dynamics.start_spot := 694.0;
                           Dynamics.atr := Envelope.atr self;
                           Dynamics.steps := steps |} path_type rs)))
      as (rest & Hpath & _ & Hrest).
    rewrite Hpath in Hiv. cbn [fst] in Hiv. destruct k as [|k].
    - injection Hiv as <-. discriminate.
    - cbn [nth_error] in Hiv. apply nth_error_In in Hiv.
      rewrite Forall_forall in Hrest. now apply Hrest. }
  apply compute_step_fields in Hstep as (_ & _ & Hiv' & Hhv' & Hy').
  rewrite Hiv', Hhv', Hy'. split; [reflexivity|]. split.
  - assert (E : 0.01 == 100 # Py.pow10 4) by reflexivity.
    rewrite E in *. now apply round_ge_multiple.
  - assert (E : 0.083 == 83 # Py.pow10 3) by reflexivity.
    rewrite E. apply round_ge_multiple. rewrite <- E.
    change (Envelope.load_den 0.12) with 0.12.
    apply Qle_shift_div_l; [reflexivity|]. lra.
Qed.

(** A loop whose body appends one element and does not raise; the body may
    draw. *)
Lemma scenario_for_from_collect_drawing {A} (P : Z -> A -> Prop)
      (body : Z -> list A -> Scenario.M (list A)) (n : nat) :
  forall (i : Z) (log : list A) (rs : Dynamics.RandomState),
    (forall j log' rs',
        (i <= j < i + Z.of_nat n)%Z ->
        exists a rs'', body j log' rs' = (inr (log' ++ [a]), rs'') /\ P j a) ->
    exists l rs',
      Scenario.for_from n i body log rs = (inr (log ++ l), rs') /\
      List.length l = n /\
      forall k a, nth_error l k = Some a -> P (i + Z.of_nat k)%Z a.
Proof.
  induction n as [|n IH]; intros i log rs H.
  - exists [], rs. rewrite app_nil_r. repeat split.
    intros k a Hk. destruct k; discriminate.
  - destruct (H i log rs ltac:(lia)) as (a & rs1 & Hbody & Ha).
    destruct (IH (i + 1)%Z (log ++ [a]) rs1) as (l & rs2 & Hl & Hlen & Hnth).
    { intros j log' rs' Hj. apply H. lia. }
    exists (a :: l), rs2. cbn [Scenario.for_from]. unfold Scenario.bind at 1.
    rewrite Hbody, Hl, <- app_assoc. split; [reflexivity|].
    split; [cbn; lia|].
    intros k b Hk. destruct k as [|k].
    + injection Hk as <-. now rewrite Z.add_0_r.
    + replace (i + Z.of_nat (S k))%Z with (i + 1 + Z.of_nat k)%Z by lia.
      now apply Hnth.
Qed.

Lemma div_by_count (a : Q) (n : Z) :
  n <> 0%Z -> Py.div a (inject_Z n) = Some (a / inject_Z n).
Proof.
  intros Hn. apply div_defined. unfold Qeq, inject_Z. cbn [Qnum Qden]. lia.
Qed.

(** X16: [run_monte_carlo] with [n_runs = 0] raises [ZeroDivisionError]
    (the breach rate divides by [n_runs]) without drawing; with a negative
    [n_runs] it returns the empty list. *)
Theorem run_monte_carlo_no_runs
        (self : Scenario.ScenarioRunner) (name path_type : string)
        (n_runs steps : Z) (rs : Dynamics.RandomState) :
  (n_runs <= 0)%Z ->
  Scenario.run_monte_carlo self name path_type n_runs steps rs
  = (if (n_runs =? 0)%Z then inl Scenario.ZeroDivisionError else inr [], rs).
Proof.
  intros Hn. unfold Scenario.run_monte_carlo, Scenario.for_range.
  replace (Z.to_nat n_runs) with 0%nat by lia.
  cbn [Scenario.for_from]. unfold Scenario.bind at 1. unfold Scenario.ret at 1.
  cbn [filter List.length map Z.of_nat].
  destruct (Z.eqb_spec n_runs 0) as [-> | Hne]; [reflexivity|].
  unfold Scenario.bind, Scenario.or_raise.
  rewrite !div_by_count by exact Hne. reflexivity.
Qed.

Lemma run_monte_carlo_no_runs_example :
  Scenario.run_monte_carlo
    scenario_config "mc_breakout" "breakout" 0 200
    {| Dynamics.deviates := fun n => inject_Z (Z.of_nat n) - 3;
       Dynamics.drawn := 0 |}
  = (inl Scenario.ZeroDivisionError,
     {| Dynamics.deviates := fun n => inject_Z (Z.of_nat n) - 3;
        Dynamics.drawn := 0 |}).
Proof.
  apply (run_monte_carlo_no_runs scenario_config "mc_breakout" "breakout"
                                 0 200).
  discriminate.
Defined.

(** X17: [run_monte_carlo] with at least one run and [steps <= 0] raises
    [ValueError]: the first run's log is empty and [max] has nothing to
    choose from.  File output is not modelled: this is the behaviour when
    the first run's log file can be written. *)
Theorem run_monte_carlo_no_steps
        (self : Scenario.ScenarioRunner) (name path_type : string)
        (n_runs steps : Z) (rs : Dynamics.RandomState) :
  (1 <= n_runs)%Z -> (steps <= 0)%Z ->
  fst (Scenario.run_monte_carlo self name path_type n_runs steps rs)
  = inl Scenario.ValueError.
Proof.
  intros Hn Hsteps. unfold Scenario.run_monte_carlo, Scenario.for_range.
  destruct (Z.to_nat n_runs) as [|n] eqn:E; [lia|].
  cbn [Scenario.for_from]. unfold Scenario.bind at 1. unfold Scenario.bind at 1.
  unfold Scenario.run_monte_carlo_body at 1. unfold Scenario.bind at 1.
  destruct (run_scenario_records
              self (name ++ "_" ++ NilZero.string_of_int (Z.to_int 0))
              path_type steps rs) as (log_data & -> & Hlen & _).
  replace (Z.to_nat steps) with 0%nat in Hlen by lia.
  destruct log_data; [|discriminate]. reflexivity.
Qed.

Lemma run_monte_carlo_no_steps_example :
  fst (Scenario.run_monte_carlo
         scenario_config "mc_breakout" "breakout" 5 0
         {| Dynamics.deviates := fun n => inject_Z (Z.of_nat n) - 3;
            Dynamics.drawn := 0 |})
  = inl Scenario.ValueError.
Proof.
  apply (run_monte_carlo_no_steps scenario_config "mc_breakout" "breakout"
                                  5 0); discriminate.
Defined.

(** X18: [run_monte_carlo] with at least one run and at least one step
    raises neither [ValueError], [IndexError] nor [ZeroDivisionError]: it
    returns [n_runs] outcomes, and outcome [k] is that of run [k].  File
    output is not modelled: this is the behaviour when the log file of
    every run can be written. *)
Theorem run_monte_carlo_returns
        (self : Scenario.ScenarioRunner) (name path_type : string)
        (n_runs steps : Z) (rs : Dynamics.RandomState) :
  (1 <= n_runs)%Z -> (1 <= steps)%Z ->
  exists results rs',
    Scenario.run_monte_carlo self name path_type n_runs steps rs
    = (inr results, rs') /\
    Z.of_nat (List.length results) = n_runs /\
    forall k o, nth_error results k = Some o -> Scenario.run o = Z.of_nat k.
Proof.
  intros Hn Hsteps. unfold Scenario.run_monte_carlo, Scenario.for_range.
  destruct (scenario_for_from_collect_drawing
              (fun j o => Scenario.run o = j)
              (Scenario.run_monte_carlo_body self name path_type steps)
              (Z.to_nat n_runs) 0%Z [] rs)
    as (results & rs' & Hloop & Hlen & Hrun).
  { intros j log' rs1 Hj. unfold Scenario.run_monte_carlo_body.
    unfold Scenario.bind at 1.
    destruct (run_scenario_records
                self (name ++ "_" ++ NilZero.string_of_int (Z.to_int j))
                path_type steps rs1) as (log_data & -> & Hlog & _).
    destruct log_data as [|r log_data]; [cbn in Hlog; lia|].
    do 2 eexists. split; reflexivity. }
  exists results, rs'. unfold Scenario.bind at 1. rewrite Hloop. cbn [app].
  unfold Scenario.bind, Scenario.or_raise.
  rewrite !div_by_count by lia. unfold Scenario.ret.
  split; [reflexivity|]. split; [lia|].
  intros k o Hk. now apply Hrun in Hk.
Qed.

Lemma run_monte_carlo_returns_example :
  exists results rs',
    Scenario.run_monte_carlo
      scenario_config "mc_breakout" "breakout" 5 200
      {| Dynamics.deviates := fun n => inject_Z (Z.of_nat n) - 3;
         Dynamics.drawn := 0 |}
    = (inr results, rs') /\
    Z.of_nat (List.length results) = 5%Z /\
    forall k o, nth_error results k = Some o -> Scenario.run o = Z.of_nat k.
Proof.
  apply (run_monte_carlo_returns scenario_config "mc_breakout" "breakout"
                                 5 200); discriminate.
Defined.

(** * The pivot *)





(** * [evaluate_state] in binary64 *)

#[local] Set Warnings "-inexact-float".

(** ** Rounding keeps the sign *)

Lemma shr_1_nonneg mrs : (0 <= shr_m mrs)%Z -> (0 <= shr_m (shr_1 mrs))%Z.
Proof.
  destruct mrs as [m r s]. cbn [shr_m]. intros H.
  destruct m as [|p|p]; [cbn; lia | destruct p; cbn; lia | lia].
Qed.

Lemma iter_pos_shr_1_nonneg (p : positive) :
  forall mrs, (0 <= shr_m mrs)%Z -> (0 <= shr_m (iter_pos shr_1 p mrs))%Z.
Proof.
  induction p as [p IH | p IH |]; intros mrs H; cbn [iter_pos].
  - apply IH, IH, shr_1_nonneg, H.
  - apply IH, IH, H.
  - apply shr_1_nonneg, H.
Qed.

Lemma shr_fexp_nonneg prec emax m e l :
  (0 <= m)%Z -> (0 <= shr_m (fst (shr_fexp prec emax m e l)))%Z.
Proof.
  intros H. unfold shr_fexp, shr.
  assert (H0 : (0 <= shr_m (shr_record_of_loc m l))%Z).
  { destruct l as [|[]]; exact H. }
  destruct (_ - e)%Z; cbn [fst]; auto using iter_pos_shr_1_nonneg.
Qed.

Lemma round_nearest_even_nonneg m l :
  (0 <= m)%Z -> (0 <= round_nearest_even m l)%Z.
Proof.
  intros H. unfold round_nearest_even.
  destruct l as [|[]]; [| destruct (Z.even m) | |]; lia.
Qed.

(** Rounding a nonnegative mantissa gives a zero, a finite value or an
    infinity of the requested sign, never NaN. *)
Lemma binary_round_aux_signed prec emax sx mx ex lx :
  (0 <= mx)%Z ->
  SF.signed sx (binary_round_aux prec emax sx mx ex lx) = true.
Proof.
  intros H. unfold binary_round_aux.
  pose proof (shr_fexp_nonneg prec emax mx ex lx H) as H1.
  destruct (shr_fexp prec emax mx ex lx) as [mrs' e']. cbn [fst] in H1.
  pose proof (shr_fexp_nonneg
                prec emax _ e' loc_Exact
                (round_nearest_even_nonneg _ (loc_of_shr_record mrs') H1))
    as H2.
  destruct (shr_fexp prec emax (round_nearest_even _ _) e' loc_Exact)
    as [mrs'' e''].
  cbn [fst] in H2.
  destruct (shr_m mrs'') as [|p|p]; [| destruct (_ <=? _)%Z |]; cbn;
    try apply eqb_reflx; lia.
Qed.

Lemma signed_not_nan s f : SF.signed s f = true -> SF.not_nan f = true.
Proof. destruct f; cbn; congruence. Qed.

Lemma binary_normalize_not_nan prec emax m e sz :
  SF.not_nan (binary_normalize prec emax m e sz) = true.
Proof.
  unfold binary_normalize, binary_round.
  destruct m as [|p|p]; [reflexivity | |];
    destruct (shl_align p e _) as [mz ez];
    eapply signed_not_nan, binary_round_aux_signed; lia.
Qed.

(** ** Subtraction, absolute value, division and comparison by class *)

Lemma SFsub_not_nan prec emax a b :
  SF.finite a = true -> SF.finite b = true ->
  SF.not_nan (SFsub prec emax a b) = true.
Proof.
  destruct a as [sa|sa| |sa ma ea], b as [sb|sb| |sb mb eb];
    cbn [SF.finite]; try discriminate; intros _ _; cbn [SFsub].
  - destruct sa, sb; reflexivity.
  - reflexivity.
  - reflexivity.
  - apply binary_normalize_not_nan.
Qed.


Lemma SFabs_nonneg a : SF.not_nan a = true -> SF.nonneg (SFabs a) = true.
Proof. destruct a; cbn; congruence. Qed.

Lemma SFdiv_core_binary_nonneg prec emax mx ex my ey :
  (0 <= fst (fst (SFdiv_core_binary prec emax (Zpos mx) ex (Zpos my) ey)))%Z.
Proof.
  unfold SFdiv_core_binary.
  set (s := (ex - ey - _)%Z).
  set (m' := match s with
             | Zpos _ => Z.shiftl (Zpos mx) s
             | Z0 => Zpos mx
             | Zneg _ => Z0
             end).
  assert (Hm : (0 <= m')%Z).
  { subst m'. destruct s; [lia | apply Z.shiftl_nonneg; lia | lia]. }
  pose proof (Z.div_pos m' (Zpos my) Hm ltac:(lia)) as Hq.
  unfold Z.div in Hq. destruct (Z.div_eucl m' (Zpos my)) as [q r].
  exact Hq.
Qed.

(** A nonnegative value divided by a positive one is nonnegative, unless
    both are infinite. *)
Lemma SFdiv_nonneg prec emax a b :
  SF.nonneg a = true -> SF.positive b = true ->
  SF.finite a = true \/ SF.finite b = true ->
  SF.nonneg (SFdiv prec emax a b) = true.
Proof.
  destruct a as [[]|[]| |[] ma ea], b as [[]|[]| |[] mb eb];
    cbn [SF.nonneg SF.signed SF.positive SF.finite Bool.eqb];
    try discriminate; intros _ _ Hfin; try reflexivity.
  - destruct Hfin; discriminate.
  - cbn [SFdiv xorb].
    pose proof (SFdiv_core_binary_nonneg prec emax ma ea mb eb) as Hq.
    destruct (SFdiv_core_binary prec emax (Zpos ma) ea (Zpos mb) eb)
      as [[mz ez] lz].
    cbn [fst] in Hq. apply binary_round_aux_signed, Hq.
Qed.


Lemma SFleb_zero_nonneg a :
  SF.nonneg a = true -> SFleb (S754_zero false) a = true.
Proof. destruct a as [[]|[]| |[] ? ?]; cbn; congruence. Qed.

Lemma SFltb_zero_positive a :
  SFltb (S754_zero false) a = true <-> SF.positive a = true.
Proof. destruct a as [[]|[]| |[] ? ?]; cbn; split; congruence. Qed.

Lemma positive_not_zero a :
  SF.positive a = true -> SFeqb a (S754_zero false) = false.
Proof. destruct a as [[]|[]| |[] ? ?]; cbn; congruence. Qed.

Lemma nonneg_finite_or_infinite a :
  SF.nonneg a = true -> SF.finite a = true \/ a = S754_infinity false.
Proof. destruct a as [[]|[]| |[] ? ?]; cbn; auto; discriminate. Qed.

(** ** The primitive operations *)

Lemma Prim2SF_zero : Prim2SF 0 = S754_zero false.
Proof. reflexivity. Qed.

Lemma is_finite_finite (f : float) :
  is_finite f = true -> SF.finite (Prim2SF f) = true.
Proof.
  unfold is_finite, is_nan, is_infinity.
  rewrite !eqb_spec, abs_spec.
  destruct (Prim2SF f) as [s|s| |s m e]; try reflexivity.
  - destruct s; cbn; discriminate.
  - cbn. discriminate.
Qed.

Lemma is_infinity_infinite (f : float) :
  is_infinity f
  = match Prim2SF f with S754_infinity _ => true | _ => false end.
Proof.
  unfold is_infinity. rewrite eqb_spec, abs_spec.
  destruct (Prim2SF f) as [s|s| |s m e]; reflexivity.
Qed.

Lemma nan_is_nan (f : float) : Prim2SF f = S754_nan -> is_nan f = true.
Proof. intros H. unfold is_nan. rewrite eqb_spec, H. reflexivity. Qed.

Lemma leb_zero_nonneg (f : float) :
  SF.nonneg (Prim2SF f) = true -> (0 <=? f)%float = true.
Proof. intros H. rewrite leb_spec, Prim2SF_zero. now apply SFleb_zero_nonneg. Qed.

Lemma ltb_zero_positive (f : float) :
  (0 <? f)%float = true <-> SF.positive (Prim2SF f) = true.
Proof. rewrite ltb_spec, Prim2SF_zero. apply SFltb_zero_positive. Qed.

(** The guard [d if d > 0 else 1e-9] is positive, and finite when [d] is. *)
Lemma guard_positive64 (d : float) :
  SF.positive (Prim2SF (if 0 <? d then d else 1e-9)%float) = true.
Proof.
  destruct (0 <? d)%float eqn:E; [now apply ltb_zero_positive | reflexivity].
Qed.

Lemma guard_finite64 (d : float) :
  SF.finite (Prim2SF d) = true ->
  SF.finite (Prim2SF (if 0 <? d then d else 1e-9)%float) = true.
Proof. intros H. destruct (0 <? d)%float; [exact H | reflexivity]. Qed.

(** Division by a positive value does not raise. *)
Lemma div_positive64 (a b : float) :
  SF.positive (Prim2SF b) = true -> Binary64.div a b = Some (a / b)%float.
Proof.
  intros H. unfold Binary64.div.
  rewrite eqb_spec, Prim2SF_zero, (positive_not_zero _ H). reflexivity.
Qed.

(** The distance [abs(a - b)] of two finite values is nonnegative; it can
    be [+inf]. *)
Lemma distance_nonneg (a b : float) :
  SF.finite (Prim2SF a) = true -> SF.finite (Prim2SF b) = true ->
  SF.nonneg (Prim2SF (abs (a - b))) = true.
Proof.
  intros Ha Hb. rewrite abs_spec, sub_spec.
  apply SFabs_nonneg, SFsub_not_nan; assumption.
Qed.


Lemma quotient_nonneg64 (a b : float) :
  SF.nonneg (Prim2SF a) = true -> SF.positive (Prim2SF b) = true ->
  SF.finite (Prim2SF a) = true \/ SF.finite (Prim2SF b) = true ->
  (0 <=? a / b)%float = true.
Proof.
  intros Ha Hb Hfin. apply leb_zero_nonneg. rewrite div_spec.
  now apply SFdiv_nonneg.
Qed.

Lemma quotient_of_infinities (a b : float) :
  is_infinity a = true -> is_infinity b = true -> is_nan (a / b) = true.
Proof.
  rewrite !is_infinity_infinite. intros Ha Hb. apply nan_is_nan.
  rewrite div_spec.
  destruct (Prim2SF a); try discriminate.
  destruct (Prim2SF b); try discriminate. reflexivity.
Qed.


(** ** The claim on [evaluate_state] *)

(** C7, as stated, fails in binary64: with the walls [-1.5e308] and [1e308]
    around the pivot [-1e308], at [spot = -1e308] both distances to the call
    wall overflow to [+inf] and [z = inf / inf] is NaN, which is not
    [>= 0]. *)
Lemma evaluate_state_z_nan :
  ~ (exists st,
        Binary64.evaluate_state
          (Binary64.mkConfig 2.8 (-1e308) (-1.5e308) 1e308)
          (-1e308) 0.15 0.12
        = Some st /\
        (0 <=? Binary64.x st)%float = true /\
        (0 <=? Binary64.z st)%float = true).
Proof.
  intros (st & Hst & _ & Hz).
  vm_compute in Hst. injection Hst as <-.
  vm_compute in Hz. discriminate.
Qed.

(** C7 (amended): for every configuration with finite fields, degenerate
    or not, every finite [spot] and any [iv] and [hv], [evaluate_state]
    never raises: each of its three denominators is positive, it returns a
    state, and the state's [x] is [>= 0].  Its [z] is [>= 0] as well, unless
    both distances [|wall - spot|] and [|wall - flip|] overflow to [+inf],
    in which case [z] is NaN. *)
Theorem evaluate_state_never_raises
        (config : Binary64.EnvelopeConfig) (spot iv hv : float) :
  is_finite (Binary64.atr config) = true ->
  is_finite (Binary64.flip config) = true ->
  is_finite (Binary64.put_wall config) = true ->
  is_finite (Binary64.call_wall config) = true ->
  is_finite spot = true ->
  (0 <? Binary64.airspeed_den config)%float = true /\
  (0 <? Binary64.load_den hv)%float = true /\
  (0 <? Binary64.proximity_den (snd (Binary64.wall_dists config spot)))%float
  = true /\
  exists st,
    Binary64.evaluate_state config spot iv hv = Some st /\
    (0 <=? Binary64.x st)%float = true /\
    if is_infinity (fst (Binary64.wall_dists config spot))
       && is_infinity (snd (Binary64.wall_dists config spot))
    then is_nan (Binary64.z st) = true
    else (0 <=? Binary64.z st)%float = true.
Proof.
  intros Hatr Hflip Hput Hcall Hspot.
  apply is_finite_finite in Hatr, Hflip, Hput, Hcall, Hspot.
  split; [apply ltb_zero_positive, guard_positive64|].
  split; [apply ltb_zero_positive, guard_positive64|].
  split; [apply ltb_zero_positive, guard_positive64|].
  unfold Binary64.evaluate_state.
  rewrite (div_positive64 _ _ (guard_positive64 (Binary64.atr config))).
  rewrite (div_positive64 _ _ (guard_positive64 hv)).
  assert (Hdists :
            SF.nonneg (Prim2SF (fst (Binary64.wall_dists config spot))) = true
            /\ SF.nonneg (Prim2SF (snd (Binary64.wall_dists config spot)))
               = true).
  { unfold Binary64.wall_dists.
    destruct (Binary64.flip config <=? spot)%float; cbn [fst snd];
      split; apply distance_nonneg; assumption. }
  destruct (Binary64.wall_dists config spot) as [wall_dist max_dist].
  cbn [fst snd] in *. destruct Hdists as [Hwall Hmax].
  rewrite (div_positive64 _ _ (guard_positive64 max_dist)).
  eexists. split; [reflexivity|]. cbn [Binary64.x Binary64.z]. split.
  - apply quotient_nonneg64.
    + apply distance_nonneg; assumption.
    + apply guard_positive64.
    + right. apply guard_finite64, Hatr.
  - destruct (is_infinity wall_dist && is_infinity max_dist) eqn:Hinf.
    + apply andb_true_iff in Hinf as [Hw Hm].
      assert (Hpos : (0 <? max_dist)%float = true).
      { apply ltb_zero_positive. rewrite is_infinity_infinite in Hm.
        destruct (Prim2SF max_dist) as [|[]| |]; cbn in *; congruence. }
      unfold Binary64.proximity_den. rewrite Hpos.
      now apply quotient_of_infinities.
    + apply quotient_nonneg64; [exact Hwall | apply guard_positive64 |].
      apply andb_false_iff in Hinf.
      rewrite !is_infinity_infinite in Hinf.
      destruct (nonneg_finite_or_infinite _ Hwall) as [Hw | Hw]; [now left|].
      destruct (nonneg_finite_or_infinite _ Hmax) as [Hm | Hm].
      * right. apply guard_finite64, Hm.
      * rewrite Hw, Hm in Hinf. destruct Hinf; discriminate.
Qed.

(** The scenario configuration at [spot = 750.0]: nothing overflows and
    both coordinates are [>= 0]. *)
Lemma evaluate_state_never_raises_scenario :
  (0 <? Binary64.airspeed_den (Binary64.mkConfig 2.8 692.5 680.0 700.0))%float
  = true /\
  (0 <? Binary64.load_den 0.12)%float = true /\
  (0 <? Binary64.proximity_den
          (snd (Binary64.wall_dists
                  (Binary64.mkConfig 2.8 692.5 680.0 700.0) 750.0)))%float
  = true /\
  exists st,
    Binary64.evaluate_state (Binary64.mkConfig 2.8 692.5 680.0 700.0)
                            750.0 0.15 0.12 = Some st /\
    (0 <=? Binary64.x st)%float = true /\
    (0 <=? Binary64.z st)%float = true.
Proof.
  apply (evaluate_state_never_raises
           (Binary64.mkConfig 2.8 692.5 680.0 700.0) 750.0 0.15 0.12);
    reflexivity.
Defined.


